(** * WhatsApp bot (src/app.py): webhook, conversation directory, polling loop

    A shallow embedding of [src/app.py].  The Flask views and the two service
    classes are functions in a state-and-exception monad over a [world] that
    holds the module-level [threads] dictionary, the chronological list of
    outbound interactions ([calls]) and the records handed to [logger].
    The remote services are an arbitrary function [remote] from the history
    of interactions (ending in the current request) to a response, so a
    theorem quantified over [remote] covers every behaviour of the two
    providers. *)

From Stdlib Require Import String Ascii List ZArith QArith Bool Lia.
Import ListNotations.
Local Open Scope string_scope.
Local Open Scope Z_scope.
Local Open Scope list_scope.
Set Warnings "-register-all".

(** ** Python values

    Values are those [json.loads] produces.  A float is represented by the
    rational number it denotes; NaN and the infinities, which are outside
    RFC 8259, are not represented.  A dictionary is its list of items in
    insertion order; lookup takes the first item with the key. *)

Inductive value : Type :=
| VNone
| VBool (b : bool)
| VInt (z : Z)
| VFloat (q : Q)
| VStr (s : string)
| VList (items : list value)
| VDict (items : list (string * value)).

Inductive exn : Type :=
| HTTPError          (* httpx transport error or raise_for_status() *)
| JSONDecodeError    (* response.json() on a body that is not JSON *)
| BadRequest         (* request.get_json() on a body that is not JSON *)
| KeyError
| IndexError
| TypeError
| AttributeError.

(** Result of evaluating an expression: a value or a raised exception. *)
Inductive outcome (A : Type) : Type :=
| Return (a : A)
| Raise (e : exn).
Arguments Return {A} a.
Arguments Raise {A} e.

Module Py.

(** [bool(v)] *)
Definition truthy (v : value) : bool :=
  match v with
  | VNone => false
  | VBool b => b
  | VInt z => negb (z =? 0)
  | VFloat q => negb (Qeq_bool q 0)
  | VStr s => negb (s =? EmptyString)%string
  | VList l => match l with [] => false | _ => true end
  | VDict d => match d with [] => false | _ => true end
  end.

(** Numeric value of [bool], [int] and [float], which compare with each
    other by value. *)
Definition number (v : value) : option Q :=
  match v with
  | VBool b => Some (inject_Z (if b then 1 else 0))
  | VInt z => Some (inject_Z z)
  | VFloat q => Some q
  | _ => None
  end.

Fixpoint lookup (key : string) (d : list (string * value)) : option value :=
  match d with
  | [] => None
  | (k, v) :: d' => if (k =? key)%string then Some v else lookup key d'
  end.

(** [a == b] *)
Fixpoint eq (a b : value) {struct a} : bool :=
  match a, b with
  | VNone, VNone => true
  | VStr s, VStr t => (s =? t)%string
  | VList l, VList m =>
      (fix all2 (l m : list value) {struct l} : bool :=
         match l, m with
         | [], [] => true
         | x :: l', y :: m' => eq x y && all2 l' m'
         | _, _ => false
         end) l m
  | VDict d, VDict e =>
      Nat.eqb (length d) (length e) &&
      (fix sub (d : list (string * value)) {struct d} : bool :=
         match d with
         | [] => true
         | (k, v) :: d' =>
             match lookup k e with
             | Some w => eq v w
             | None => false
             end && sub d'
         end) d
  | _, _ =>
      match number a, number b with
      | Some p, Some q => Qeq_bool p q
      | _, _ => false
      end
  end.

(** [hash(v)] succeeds: lists and dictionaries are unhashable. *)
Definition hashable (v : value) : bool :=
  match v with
  | VList _ | VDict _ => false
  | _ => true
  end.

Fixpoint is_prefix (p s : string) : bool :=
  match p, s with
  | EmptyString, _ => true
  | String a p', String b s' => Ascii.eqb a b && is_prefix p' s'
  | String _ _, EmptyString => false
  end.

Fixpoint is_substring (p s : string) : bool :=
  is_prefix p s ||
  match s with
  | EmptyString => false
  | String _ s' => is_substring p s'
  end.

(** The one-character strings of [s]. A [str] is modelled by its bytes, so
    on text outside ASCII this visits bytes where Python visits code
    points. *)
Fixpoint chars (s : string) : list value :=
  match s with
  | EmptyString => []
  | String a s' => VStr (String a EmptyString) :: chars s'
  end.

(** [key in container], for a [str] key. *)
Definition contains (key : string) (container : value) : outcome bool :=
  match container with
  | VDict d => Return (match lookup key d with Some _ => true | None => false end)
  | VList l => Return (existsb (eq (VStr key)) l)
  | VStr s => Return (is_substring key s)
  | _ => Raise TypeError
  end.

(** [container[key]], for a [str] key. *)
Definition getitem (container : value) (key : string) : outcome value :=
  match container with
  | VDict d => match lookup key d with Some v => Return v | None => Raise KeyError end
  | _ => Raise TypeError
  end.

(** [container[0]] *)
Definition getitem0 (container : value) : outcome value :=
  match container with
  | VList l => match l with x :: _ => Return x | [] => Raise IndexError end
  | VStr s => match chars s with x :: _ => Return x | [] => Raise IndexError end
  | VDict _ => Raise KeyError
  | _ => Raise TypeError
  end.

(** [obj.get(key, default)]: only dictionaries have the method. *)
Definition get (obj : value) (key : string) (default : value) : outcome value :=
  match obj with
  | VDict d => Return (match lookup key d with Some v => v | None => default end)
  | _ => Raise AttributeError
  end.

(** The items a [for] loop over [v] visits. *)
Definition iterate (v : value) : outcome (list value) :=
  match v with
  | VList l => Return l
  | VDict d => Return (map (fun kv => VStr (fst kv)) d)
  | VStr s => Return (chars s)
  | _ => Raise TypeError
  end.

End Py.

(** ** The module-level dictionary [threads]

    Keys are whatever [process_message] passes as [user_id]; two keys are
    the same key when they are equal in Python's sense. *)

Definition pydict := list (value * value).

Fixpoint dict_get (d : pydict) (key : value) : option value :=
  match d with
  | [] => None
  | (k, v) :: d' => if Py.eq k key then Some v else dict_get d' key
  end.

(** [d[key] = v] *)
Fixpoint dict_set (d : pydict) (key v : value) : pydict :=
  match d with
  | [] => [(key, v)]
  | (k, w) :: d' => if Py.eq k key then (k, v) :: d' else (k, w) :: dict_set d' key v
  end.

(** ** Outbound interactions, remote responses, log records *)

Inductive event : Type :=
| CreateThread                                (* POST {openai}/threads *)
| AddMessage (thread_id message : value)      (* POST {openai}/threads/{thread_id}/messages *)
| StartRun (thread_id : value)                (* POST {openai}/threads/{thread_id}/runs *)
| Sleep                                       (* time.sleep(1) *)
| GetRun (thread_id run_id : value)           (* GET  {openai}/threads/{thread_id}/runs/{run_id} *)
| ListMessages (thread_id : value)            (* GET  {openai}/threads/{thread_id}/messages *)
| SendMessage (phone_id message : value).     (* POST {graph}/{phone_number_id}/messages *)

(** What [http_client.post]/[get] followed by [raise_for_status()] gives:
    either one of the two raised, or a 2xx response whose [json()] is
    [body] when the body decodes. *)
Inductive response : Type :=
| Unsuccessful
| Success (body : option value).

Inductive log_record : Type :=
| Info_message_sent (phone_id : value)
| Error_send_failed (e : exn)
| Info_created_thread (thread_id user_id : value)
| Error_create_thread (e : exn)
| Error_add_message (e : exn)
| Error_run_status (status : value)
| Error_run_assistant (e : exn)
| Info_webhook_verified
| Info_received_webhook (data : value)
| Info_status_update
| Error_processing_webhook (e : exn)
| Error_no_phone_id
| Info_received_message (contact_name phone_id message_text : value)
| Error_failed_to_add_message
| Info_ai_response (contact_name ai_response : value)
| Info_response_sent (contact_name : value)
| Error_response_not_sent (contact_name : value)
| Error_no_ai_response
| Error_processing_message (e : exn).

Record world : Type := mkWorld {
  threads : pydict;
  calls : list event;
  logged : list log_record
}.

(** ** Statements with effects: state passing, with exceptions *)

Definition M (A : Type) : Type := world -> outcome A * world.

Definition ret {A} (a : A) : M A := fun w => (Return a, w).

Definition raise {A} (e : exn) : M A := fun w => (Raise e, w).

Definition bind {A B} (m : M A) (f : A -> M B) : M B :=
  fun w =>
    match m w with
    | (Return a, w') => f a w'
    | (Raise e, w') => (Raise e, w')
    end.

(** [try: m  except Exception as e: handler e] *)
Definition try {A} (m : M A) (handler : exn -> M A) : M A :=
  fun w =>
    match m w with
    | (Return a, w') => (Return a, w')
    | (Raise e, w') => handler e w'
    end.

(** An expression without effects, evaluated in a statement. *)
Definition eval {A} (o : outcome A) : M A := fun w => (o, w).

Notation "x <- m ;; k" := (bind m (fun x => k))
  (at level 61, m at next level, right associativity).
Notation "m ;;; k" := (bind m (fun _ => k))
  (at level 61, right associativity).

Definition log (r : log_record) : M unit :=
  fun w => (Return tt, mkWorld (threads w) (calls w) (logged w ++ [r])).

Fixpoint for_items {A} (items : list A) (body : A -> M unit) : M unit :=
  match items with
  | [] => ret tt
  | x :: rest => body x ;;; for_items rest body
  end.

(** [for x in v: body x] *)
Definition for_each (v : value) (body : value -> M unit) : M unit :=
  items <- eval (Py.iterate v) ;;
  for_items items body.

(** [response.json()] after [raise_for_status()] *)
Definition json (r : response) : outcome value :=
  match r with
  | Unsuccessful => Raise HTTPError
  | Success None => Raise JSONDecodeError
  | Success (Some body) => Return body
  end.

(** [raise_for_status()] alone, for the calls whose body is not read. *)
Definition raise_for_status (r : response) : outcome unit :=
  match r with
  | Unsuccessful => Raise HTTPError
  | Success _ => Return tt
  end.

Definition obind {A B} (o : outcome A) (f : A -> outcome B) : outcome B :=
  match o with
  | Return a => f a
  | Raise e => Raise e
  end.

Section Services.

(** The remote side: the response to the last interaction of a history. *)
Variable remote : list event -> response.

Definition request (e : event) : M response :=
  fun w =>
    let history := calls w ++ [e] in
    (Return (remote history), mkWorld (threads w) history (logged w)).

Definition sleep : M unit :=
  fun w => (Return tt, mkWorld (threads w) (calls w ++ [Sleep]) (logged w)).

(** [WhatsAppService.send_message] *)
Definition send_message (phone_id message : value) : M bool :=
  try (r <- request (SendMessage phone_id message) ;;
       eval (raise_for_status r) ;;;
       log (Info_message_sent phone_id) ;;;
       ret true)
      (fun e => log (Error_send_failed e) ;;; ret false).

Definition threads_contains (user_id : value) : M bool :=
  fun w =>
    if Py.hashable user_id
    then (Return (match dict_get (threads w) user_id with Some _ => true | None => false end), w)
    else (Raise TypeError, w).

Definition threads_getitem (user_id : value) : M value :=
  fun w =>
    match dict_get (threads w) user_id with
    | Some v => (Return v, w)
    | None => (Raise KeyError, w)
    end.

Definition threads_setitem (user_id thread_id : value) : M unit :=
  fun w => (Return tt, mkWorld (dict_set (threads w) user_id thread_id) (calls w) (logged w)).

(** [OpenAIService.get_or_create_thread] *)
Definition get_or_create_thread (user_id : value) : M value :=
  found <- threads_contains user_id ;;
  if found then threads_getitem user_id
  else
    try (r <- request CreateThread ;;
         thread_data <- eval (json r) ;;
         thread_id <- eval (Py.getitem thread_data "id") ;;
         threads_setitem user_id thread_id ;;;
         log (Info_created_thread thread_id user_id) ;;;
         ret thread_id)
        (fun e => log (Error_create_thread e) ;;; raise e).

(** [OpenAIService.add_message_to_thread] *)
Definition add_message_to_thread (thread_id message : value) : M bool :=
  try (r <- request (AddMessage thread_id message) ;;
       eval (raise_for_status r) ;;;
       ret true)
      (fun e => log (Error_add_message e) ;;; ret false).

(** [status in ["failed", "cancelled", "expired"]] *)
Definition run_ended (status : value) : bool :=
  existsb (Py.eq status) [VStr "failed"; VStr "cancelled"; VStr "expired"].

(** [m["content"][0]["text"]["value"]] *)
Definition message_text (m : value) : outcome value :=
  obind (Py.getitem m "content") (fun content =>
  obind (Py.getitem0 content) (fun part =>
  obind (Py.getitem part "text") (fun text =>
  Py.getitem text "value"))).

(** [messages[0]["content"][0]["text"]["value"]] *)
Definition first_text (messages : value) : outcome value :=
  obind (Py.getitem0 messages) message_text.

(** The loop [for attempt in range(attempts)] of [run_assistant]; leaving
    the loop, by [break] or by exhaustion, reaches [return None]. *)
Fixpoint poll (thread_id run_id : value) (attempts : nat) : M value :=
  match attempts with
  | O => ret VNone
  | S remaining =>
      sleep ;;;
      status_response <- request (GetRun thread_id run_id) ;;
      body <- eval (json status_response) ;;
      status <- eval (Py.getitem body "status") ;;
      if Py.eq status (VStr "completed") then
        messages_response <- request (ListMessages thread_id) ;;
        listing <- eval (json messages_response) ;;
        messages <- eval (Py.getitem listing "data") ;;
        if Py.truthy messages then eval (first_text messages)
        else ret VNone
      else if run_ended status then
        log (Error_run_status status) ;;; ret VNone
      else poll thread_id run_id remaining
  end.

Definition max_attempts : nat := 10.

(** [OpenAIService.run_assistant] *)
Definition run_assistant (thread_id : value) : M value :=
  try (r <- request (StartRun thread_id) ;;
       run <- eval (json r) ;;
       run_id <- eval (Py.getitem run "id") ;;
       poll thread_id run_id max_attempts)
      (fun e => log (Error_run_assistant e) ;;; ret VNone).

End Services.

(** ** The Flask views and the orchestrator *)

(** What a view function returns, and what Flask answers for it: a bare
    [str] is the body of a 200 response, a pair carries its status, and
    [None] is no response at all (Flask raises and answers 500). *)
Inductive view_return : Type :=
| Bare (body : option string)
| With_status (body : string) (status : Z).

Inductive http_response : Type :=
| Responded (status : Z) (body : string)
| Internal_server_error.

Definition flask_response (r : view_return) : http_response :=
  match r with
  | Bare (Some body) => Responded 200 body
  | Bare None => Internal_server_error
  | With_status body status => Responded status body
  end.

(** [request.get_json()]: raises on a body that does not parse, otherwise
    the parsed value. *)
Inductive request_body : Type :=
| Malformed
| Json (data : value).

Definition get_json (body : request_body) : outcome value :=
  match body with
  | Malformed => Raise BadRequest
  | Json data => Return data
  end.

(** [a or b], on conditions that may raise; [b] is evaluated only when [a]
    is false. *)
Definition or_else (a b : outcome bool) : outcome bool :=
  obind a (fun x => if x then Return true else b).

Section Views.

Variable remote : list event -> response.

(** [Config.VERIFY_TOKEN] *)
Variable VERIFY_TOKEN : string.

Definition option_string_eqb (a : option string) (b : string) : bool :=
  match a with
  | Some s => (s =? b)%string
  | None => false
  end.

(** [verify_webhook]; the arguments are [request.args.get] of
    [hub.mode], [hub.verify_token] and [hub.challenge]. *)
Definition verify_webhook (mode token challenge : option string) : M view_return :=
  if option_string_eqb mode "subscribe" && option_string_eqb token VERIFY_TOKEN then
    log Info_webhook_verified ;;;
    ret (Bare challenge)
  else
    ret (With_status "Forbidden" 403).

(** The loop over [contacts] in [process_message] that finds
    [contact_name]. *)
Fixpoint scan_contacts (contacts : list value) (phone_id : value) : outcome value :=
  match contacts with
  | [] => Return (VStr "Unknown")
  | contact :: rest =>
      obind (Py.get contact "wa_id" VNone) (fun wa_id =>
        if Py.eq wa_id phone_id then
          obind (Py.get contact "profile" (VDict [])) (fun profile =>
            Py.get profile "name" (VStr "Unknown"))
        else scan_contacts rest phone_id)
  end.

Definition contact_name_of (contacts phone_id : value) : outcome value :=
  obind (Py.iterate contacts) (fun items => scan_contacts items phone_id).

(** [process_message] *)
Definition process_message (message contacts : value) : M unit :=
  try (phone_id <- eval (Py.get message "from" VNone) ;;
       text <- eval (Py.get message "text" (VDict [])) ;;
       message_text <- eval (Py.get text "body" (VStr EmptyString)) ;;
       if negb (Py.truthy phone_id) then
         log Error_no_phone_id
       else
         contact_name <- eval (contact_name_of contacts phone_id) ;;
         log (Info_received_message contact_name phone_id message_text) ;;;
         thread_id <- get_or_create_thread remote phone_id ;;
         added <- add_message_to_thread remote thread_id message_text ;;
         if negb added then
           log Error_failed_to_add_message
         else
           ai_response <- run_assistant remote thread_id ;;
           if Py.truthy ai_response then
             log (Info_ai_response contact_name ai_response) ;;;
             success <- send_message remote phone_id ai_response ;;
             if success then log (Info_response_sent contact_name)
             else log (Error_response_not_sent contact_name)
           else
             log Error_no_ai_response)
      (fun e => log (Error_processing_message e)).

(** [not data or 'object' not in data or
     data['object'] != 'whatsapp_business_account'] *)
Definition not_for_us (data : value) : outcome bool :=
  or_else (Return (negb (Py.truthy data)))
    (or_else (obind (Py.contains "object" data) (fun b => Return (negb b)))
       (obind (Py.getitem data "object") (fun o =>
          Return (negb (Py.eq o (VStr "whatsapp_business_account")))))).

(** The body of [for change in entry.get('changes', [])]. *)
Definition handle_change (change : value) : M unit :=
  field <- eval (Py.get change "field" VNone) ;;
  if Py.eq field (VStr "messages") then
    value <- eval (Py.get change "value" (VDict [])) ;;
    is_status <- eval (Py.contains "statuses" value) ;;
    if is_status then
      log Info_status_update
    else
      messages <- eval (Py.get value "messages" (VList [])) ;;
      for_each messages (fun message =>
        contacts <- eval (Py.get value "contacts" (VList [])) ;;
        process_message message contacts)
  else ret tt.

(** The body of [for entry in data.get('entry', [])]. *)
Definition handle_entry (entry : value) : M unit :=
  changes <- eval (Py.get entry "changes" (VList [])) ;;
  for_each changes handle_change.

(** [handle_webhook] *)
Definition handle_webhook (body : request_body) : M view_return :=
  try (data <- eval (get_json body) ;;
       log (Info_received_webhook data) ;;;
       ignored <- eval (not_for_us data) ;;
       if ignored then ret (With_status "OK" 200)
       else
         entries <- eval (Py.get data "entry" (VList [])) ;;
         for_each entries handle_entry ;;;
         ret (With_status "OK" 200))
      (fun e => log (Error_processing_webhook e) ;;; ret (With_status "OK" 200)).

(** [health_check]: the [threads_count] of the JSON answer. *)
Definition health_check : M nat :=
  fun w => (Return (length (threads w)), w).

End Views.

(** ** Notions used by the statements

    [d'] has every entry of [d], with the same handle. *)
Definition extends (d d' : pydict) : Prop :=
  forall k h, dict_get d k = Some h -> dict_get d' k = Some h.

(** Running [m] keeps every entry of [threads], with its handle. *)
Definition keeps_threads {A} (m : M A) : Prop :=
  forall w, extends (threads w) (threads (snd (m w))).

Definition empty_world : world := mkWorld [] [] [].

(** The HTTP answer to a request whose view ran as [m] from [w]; an
    exception that leaves a view is a 500. *)
Definition answer (m : M view_return) (w : world) : http_response :=
  match fst (m w) with
  | Return r => flask_response r
  | Raise _ => Internal_server_error
  end.

(** What lines 107-110 of [get_or_create_thread] read off the response to
    the create call: the new thread's id, or the exception raised. *)
Definition created_thread_id (r : response) : outcome value :=
  obind (json r) (fun thread_data => Py.getitem thread_data "id").

(** The remote side answers the last request of [history] with a JSON
    object whose member [key] is [v]. *)
Definition replies (remote : list event -> response) (history : list event)
    (key : string) (v : value) : Prop :=
  exists body, remote history = Success (Some body) /\ Py.getitem body key = Return v.

Definition is_status_check (e : event) : bool :=
  match e with
  | GetRun _ _ => true
  | _ => false
  end.

(** Number of job-status requests in a history. *)
Definition status_checks (history : list event) : nat :=
  length (filter is_status_check history).

(** The interactions of [n] rounds of the polling loop that find the run
    still going. *)
Fixpoint polls (thread_id run_id : value) (n : nat) : list event :=
  match n with
  | O => []
  | S n' => Sleep :: GetRun thread_id run_id :: polls thread_id run_id n'
  end.

(** A remote side for examples: the k-th status request is answered with
    the k-th name of [statuses] ("running" past the end), a message listing
    with [results]; threads and runs are created, everything else
    succeeds. *)
Definition scripted_remote (statuses : list string) (results : list value)
    : list event -> response :=
  fun history =>
    match last history Sleep with
    | CreateThread => Success (Some (VDict [("id", VStr "thread_1")]))
    | StartRun _ => Success (Some (VDict [("id", VStr "run_1")]))
    | GetRun _ _ =>
        Success (Some (VDict [("status",
          VStr (nth (status_checks history - 1) statuses "running"))]))
    | ListMessages _ => Success (Some (VDict [("data", VList results)]))
    | _ => Success None
    end.

(** A remote side on which every request fails. *)
Definition unreachable_remote : list event -> response := fun _ => Unsuccessful.

Definition text_message (s : string) : value :=
  VDict [("content", VList [VDict [("text", VDict [("value", VStr s)])]])].

(** The world after the interactions [es], nothing else changed. *)
Definition after (w : world) (es : list event) : world :=
  mkWorld (threads w) (calls w ++ es) (logged w).

(** The sender id of a message entry: its 'from' member. *)
Definition sender_id (message : value) : option value :=
  match message with
  | VDict d => Py.lookup "from" d
  | _ => None
  end.

(** The top-level 'object' member of a request body, when it has one. *)
Definition object_field (body : request_body) : option value :=
  match body with
  | Json (VDict d) => Py.lookup "object" d
  | _ => None
  end.

(** The records [handle_webhook] itself logs outside its loops; every
    other record comes from [process_message], the status-update branch or
    a service. *)
Definition webhook_record (r : log_record) : Prop :=
  match r with
  | Info_received_webhook _ | Error_processing_webhook _ => True
  | _ => False
  end.

(** The world with the records [rs] logged, nothing else changed. *)
Definition logging (w : world) (rs : list log_record) : world :=
  mkWorld (threads w) (calls w) (logged w ++ rs).

(** Running [m] only adds interactions, each of which satisfies [P]. *)
Definition emits {A} (P : event -> Prop) (m : M A) : Prop :=
  forall w, exists es, calls (snd (m w)) = calls w ++ es /\ Forall P es.

(** The interactions that precede the start of a run: creating the thread
    and appending the message. *)
Definition before_run (e : event) : Prop :=
  match e with
  | CreateThread | AddMessage _ _ => True
  | _ => False
  end.

(** A remote side that refuses every append and otherwise answers as
    [scripted_remote [] []]. *)
Definition refusing_append : list event -> response :=
  fun history =>
    match last history Sleep with
    | AddMessage _ _ => Unsuccessful
    | _ => scripted_remote [] [] history
    end.

(** ** The walk over a delivery notification, in the specification's words

    "Walks nested delivery entries; status-update entries are logged and
    skipped; message entries are handed individually to the Orchestrator":
    the deliveries of a notification, in order, read off a payload of the
    provider's shape. *)

Inductive delivery : Type :=
| Status_update
| Message (message contacts : value).

Definition member (key : string) (v default : value) : value :=
  match v with
  | VDict d => match Py.lookup key d with Some x => x | None => default end
  | _ => default
  end.

Definition has_member (key : string) (v : value) : bool :=
  match v with
  | VDict d => match Py.lookup key d with Some _ => true | None => false end
  | _ => false
  end.

Definition elements (v : value) : list value :=
  match v with
  | VList l => l
  | _ => []
  end.

Definition change_deliveries (change : value) : list delivery :=
  if Py.eq (member "field" change VNone) (VStr "messages") then
    let value := member "value" change (VDict []) in
    if has_member "statuses" value then [Status_update]
    else map (fun message => Message message (member "contacts" value (VList [])))
             (elements (member "messages" value (VList [])))
  else [].

Definition entry_deliveries (entry : value) : list delivery :=
  flat_map change_deliveries (elements (member "changes" entry (VList []))).

Definition notification_deliveries (data : value) : list delivery :=
  flat_map entry_deliveries (elements (member "entry" data (VList []))).

(** What is done with one delivery. *)
Definition deliver (remote : list event -> response) (d : delivery) : M unit :=
  match d with
  | Status_update => log Info_status_update
  | Message message contacts => process_message remote message contacts
  end.

(** The world after one delivery: a status update leaves one log record
    and nothing else; a message entry is handed, with the contacts of its
    change, to [process_message], whose world it is. *)
Definition after_delivery (remote : list event -> response) (w : world)
    (d : delivery) : world :=
  match d with
  | Status_update => logging w [Info_status_update]
  | Message message contacts => snd (process_message remote message contacts w)
  end.

(** The world after the deliveries [ds], one after the other, from [w]. *)
Definition after_deliveries (remote : list event -> response)
    (ds : list delivery) (w : world) : world :=
  fold_left (after_delivery remote) ds w.

(** A payload of the provider's shape: objects where objects are expected,
    arrays where arrays are. *)

Definition is_dict (v : value) : bool :=
  match v with
  | VDict _ => true
  | _ => false
  end.

Definition is_list_of (p : value -> bool) (v : value) : bool :=
  match v with
  | VList l => forallb p l
  | _ => false
  end.

Definition well_formed_change (change : value) : bool :=
  is_dict change &&
  (if Py.eq (member "field" change VNone) (VStr "messages") then
     let value := member "value" change (VDict []) in
     is_dict value &&
     (has_member "statuses" value
      || is_list_of (fun _ => true) (member "messages" value (VList [])))
   else true).

Definition well_formed_entry (entry : value) : bool :=
  is_dict entry
  && is_list_of well_formed_change (member "changes" entry (VList [])).

Definition well_formed_notification (data : value) : bool :=
  is_dict data
  && is_list_of well_formed_entry (member "entry" data (VList [])).

(** A notification with one status update and two messages of one sender. *)
Definition sample_contacts : value :=
  VList [VDict [("wa_id", VStr "111"); ("profile", VDict [("name", VStr "Ann")])]].

Definition sample_message (body : string) : value :=
  VDict [("from", VStr "111"); ("text", VDict [("body", VStr body)])].

Definition sample_notification : value :=
  VDict [("object", VStr "whatsapp_business_account");
         ("entry", VList [
            VDict [("changes", VList [
              VDict [("field", VStr "messages");
                     ("value", VDict [("statuses", VList [VDict []]);
                                      ("messages", VList [sample_message "lost"])])];
              VDict [("field", VStr "account_update"); ("value", VInt 1)];
              VDict [("field", VStr "messages");
                     ("value", VDict [("contacts", sample_contacts);
                                      ("messages", VList [sample_message "Hello";
                                                          sample_message "Again"])])]])]])].

Definition any_event (e : event) : Prop := True.

(** The notification of the specification's end-to-end scenario: one text
    message "Hello" from sender "111". *)
Definition hello_notification : value :=
  VDict [("object", VStr "whatsapp_business_account");
         ("entry", VList [
            VDict [("changes", VList [
              VDict [("field", VStr "messages");
                     ("value", VDict [("contacts", sample_contacts);
                                      ("messages", VList [sample_message "Hello"])])]])]])].

(** ** Counting interactions *)

Definition count (p : event -> bool) (history : list event) : nat :=
  length (filter p history).

Definition is_sleep (e : event) : bool :=
  match e with Sleep => true | _ => false end.

Definition is_listing (e : event) : bool :=
  match e with ListMessages _ => true | _ => false end.

Definition is_create (e : event) : bool :=
  match e with CreateThread => true | _ => false end.

Definition is_reply (e : event) : bool :=
  match e with SendMessage _ _ => true | _ => false end.

(** [es] is empty or the single interaction [e]. *)
Definition at_most (e : event) (es : list event) : Prop :=
  es = [] \/ es = [e].

(** The interactions of one [run_assistant] on [thread_id]: the start of the
    run, then rounds of the loop, then possibly the message listing. *)
Definition run_trace (thread_id : value) (es : list event) : Prop :=
  exists run_id k listing,
    es = StartRun thread_id :: polls thread_id run_id k ++ listing
    /\ (k <= 10)%nat
    /\ at_most (ListMessages thread_id) listing.

(** [message.get('text', {}).get('body', '')] of a message entry whose
    members have the provider's shape. *)
Definition text_body (message : value) : value :=
  member "body" (member "text" message (VDict [])) (VStr EmptyString).

(** The interactions of one [process_message], in order: at most one thread
    creation; then nothing more, or the append of the message's text; then
    nothing more, or one run; then nothing more, or one reply, to the
    message's sender, with a truthy body, after a message listing. *)
Definition message_trace (message : value) (es : list event) : Prop :=
  exists create,
    at_most CreateThread create
    /\ (es = create
        \/ exists thread_id,
            es = create ++ [AddMessage thread_id (text_body message)]
            \/ exists run,
                run_trace thread_id run
                /\ (es = create ++ AddMessage thread_id (text_body message) :: run
                    \/ exists phone_id body,
                        es = create ++ AddMessage thread_id (text_body message)
                                    :: run ++ [SendMessage phone_id body]
                        /\ sender_id message = Some phone_id
                        /\ Py.truthy body = true
                        /\ In (ListMessages thread_id) run)).

(** The outcome of the polling loop once the run is found completed and
    the listing's [data] is [messages]: what [run_assistant] returns. *)
Definition completed_result (messages : value) : value :=
  if Py.truthy messages then
    match first_text messages with
    | Return text => text
    | Raise _ => VNone
    end
  else VNone.

(** The records [run_assistant] logs when the first message of a completed
    run cannot be read. *)
Definition completed_records (messages : value) : list log_record :=
  if Py.truthy messages then
    match first_text messages with
    | Return _ => []
    | Raise e => [Error_run_assistant e]
    end
  else [].

(** ** The world only grows *)

(** From [w] to [w']: entries were appended to [threads], interactions to
    [calls], records to [logged], and no more entries than threads were
    requested. *)
Definition grows (w w' : world) : Prop :=
  exists added es rs,
    threads w' = threads w ++ added
    /\ calls w' = calls w ++ es
    /\ logged w' = logged w ++ rs
    /\ (length added <= count is_create es)%nat.

Definition respects (R : world -> world -> Prop) {A} (m : M A) : Prop :=
  forall w, R w (snd (m w)).

(** ** Startup configuration (lines 29-43) *)

Module Config.

(** [os.getenv], after [load_dotenv()]. *)
Definition environ : Type := string -> option string.

Record t : Type := mk {
  ACCESS_TOKEN : option string;
  PHONE_NUMBER_ID : option string;
  VERIFY_TOKEN : string;
  OPENAI_API_KEY : option string;
  OPENAI_ASSISTANT_ID : option string;
  ASSISTANT_NAME : string;
  ASSISTANT_INSTRUCTIONS : string
}.

(** [os.getenv(name, default)] *)
Definition getenv_or (getenv : environ) (name default : string) : string :=
  match getenv name with
  | Some v => v
  | None => default
  end.

(** The class body of [Config]. *)
Definition load (getenv : environ) : t :=
  mk (getenv "ACCESS_TOKEN")
     (getenv "PHONE_NUMBER_ID")
     (getenv_or getenv "VERIFY_TOKEN" "12345")
     (getenv "OPENAI_API_KEY")
     (getenv "OPENAI_ASSISTANT_ID")
     (getenv_or getenv "ASSISTANT_NAME" "WhatsApp Assistant")
     (getenv_or getenv "ASSISTANT_INSTRUCTIONS" "You are a helpful assistant.").

(** [getattr(Config, var)], for the names of [required_vars]. *)
Definition getattr (c : t) (var : string) : option string :=
  if (var =? "ACCESS_TOKEN")%string then ACCESS_TOKEN c
  else if (var =? "PHONE_NUMBER_ID")%string then PHONE_NUMBER_ID c
  else if (var =? "OPENAI_API_KEY")%string then OPENAI_API_KEY c
  else if (var =? "OPENAI_ASSISTANT_ID")%string then OPENAI_ASSISTANT_ID c
  else None.

Definition required_vars : list string :=
  ["ACCESS_TOKEN"; "PHONE_NUMBER_ID"; "OPENAI_API_KEY"; "OPENAI_ASSISTANT_ID"].

(** [not getattr(Config, var)]: unset, or set to the empty string. *)
Definition unset (v : option string) : bool :=
  match v with
  | None => true
  | Some s => (s =? EmptyString)%string
  end.

(** [[var for var in required_vars if not getattr(Config, var)]] *)
Definition missing_vars (c : t) : list string :=
  filter (fun var => unset (getattr c var)) required_vars.

(** Module start: [inl missing] is the [ValueError] naming [missing],
    [inr c] the configuration the services are built from. *)
Definition startup (getenv : environ) : list string + t :=
  let c := load getenv in
  match missing_vars c with
  | [] => inr c
  | missing => inl missing
  end.

(** An environment for examples, from a list of settings. *)
Fixpoint environ_of (settings : list (string * string)) : environ :=
  fun name =>
    match settings with
    | [] => None
    | (k, v) :: rest => if (k =? name)%string then Some v else environ_of rest name
    end.

End Config.

(** A status on which the loop of [run_assistant] goes on: neither
    "completed" nor one of "failed", "cancelled", "expired". *)
Definition still_going (status : value) : bool :=
  negb (Py.eq status (VStr "completed")) && negb (run_ended status).

(** The first [n] status requests of a run started from [w] are answered
    with statuses on which the loop goes on. *)
Definition going_for (remote : list event -> response) (w : world)
    (thread_id run_id : value) (n : nat) : Prop :=
  forall j, (j < n)%nat ->
    exists status,
      replies remote (calls w ++ StartRun thread_id :: polls thread_id run_id (S j))
        "status" status
      /\ still_going status = true.

Definition not_reply (e : event) : Prop := is_reply e = false.

(** Every status request is answered with a status on which the loop of
    [run_assistant] goes on. *)
Definition never_done (remote : list event -> response) : Prop :=
  forall history t r,
    exists status,
      replies remote (history ++ [GetRun t r]) "status" status
      /\ still_going status = true.

(** Number of messages among deliveries. *)
Definition messages_in (ds : list delivery) : nat :=
  length (filter (fun d => match d with Message _ _ => true | Status_update => false end) ds).

(** An entry with one message of the sample sender. *)
Definition sample_entry (body : string) : value :=
  VDict [("changes", VList [
    VDict [("field", VStr "messages");
           ("value", VDict [("contacts", sample_contacts);
                            ("messages", VList [sample_message body])])]])].

(** The members of a notification whose second entry is not an object. *)
Definition broken_items : list (string * value) :=
  [("object", VStr "whatsapp_business_account");
   ("entry", VList [sample_entry "Hello"; VInt 7; sample_entry "Again"])].

(** ** What the log cannot influence *)

(** Two worlds with the same [threads] and the same outbound calls. *)
Definition same_effects (w1 w2 : world) : Prop :=
  threads w1 = threads w2 /\ calls w1 = calls w2.

(** From worlds with the same effects, [m1] and [m2] give the same result
    and worlds with the same effects. *)
Definition log_blind {A} (m1 m2 : M A) : Prop :=
  forall w1 w2,
    same_effects w1 w2 ->
    fst (m1 w1) = fst (m2 w2) /\ same_effects (snd (m1 w1)) (snd (m2 w2)).

(** The contact at the head of the scan is an object that is not the
    sender's. *)
Definition other_contact (phone_id contact : value) : Prop :=
  is_dict contact = true /\ Py.eq (member "wa_id" contact VNone) phone_id = false.

(** A full environment for examples. *)
Definition sample_environ : Config.environ :=
  Config.environ_of [("ACCESS_TOKEN", "EAAG"); ("PHONE_NUMBER_ID", "1055");
                     ("OPENAI_API_KEY", "sk-test"); ("OPENAI_ASSISTANT_ID", "asst_1")].

(** An interaction of a message handled on the thread [thread_id]: no
    thread creation, and every request about a thread is about that one. *)
Definition on_thread (thread_id : value) (e : event) : Prop :=
  match e with
  | CreateThread => False
  | AddMessage t _ | StartRun t | GetRun t _ | ListMessages t => t = thread_id
  | Sleep | SendMessage _ _ => True
  end.

(** ** Facts about Python equality and the [threads] dictionary *)

Lemma eq_str_true (v : value) (s : string) :
  Py.eq v (VStr s) = true -> v = VStr s.
Proof.
  destruct v; simpl; try discriminate.
  intro H. apply String.eqb_eq in H. now subst.
Qed.

Lemma eq_str_iff (v : value) (s : string) :
  Py.eq v (VStr s) = true <-> v = VStr s.
Proof.
  split; [apply eq_str_true|].
  intros ->. simpl. apply String.eqb_refl.
Qed.

Lemma eq_refl_hashable (k : value) :
  Py.hashable k = true -> Py.eq k k = true.
Proof.
  destruct k; simpl; intros H; try discriminate;
    auto using Qeq_bool_refl, String.eqb_refl.
Qed.

Lemma dict_get_set_same (d : pydict) (k v : value) :
  Py.eq k k = true -> dict_get (dict_set d k v) k = Some v.
Proof.
  intros Hk. induction d as [|[k0 w0] d IH]; simpl.
  - now rewrite Hk.
  - destruct (Py.eq k0 k) eqn:E; simpl; rewrite E; auto.
Qed.

Lemma extends_refl (d : pydict) : extends d d.
Proof. intros k h H; exact H. Qed.

Lemma extends_trans (d1 d2 d3 : pydict) :
  extends d1 d2 -> extends d2 d3 -> extends d1 d3.
Proof. intros H12 H23 k h H. auto. Qed.

Lemma extends_set_fresh (d : pydict) (k v : value) :
  dict_get d k = None -> extends d (dict_set d k v).
Proof.
  induction d as [|[k0 w0] d IH]; simpl; intros Hk k' h H.
  - discriminate.
  - destruct (Py.eq k0 k) eqn:E; [discriminate|].
    simpl in *. destruct (Py.eq k0 k'); auto.
    now apply IH.
Qed.

(** ** Statements that keep every entry of [threads] *)

Lemma keeps_ret {A} (a : A) : keeps_threads (ret a).
Proof. intros w; apply extends_refl. Qed.

Lemma keeps_raise {A} (e : exn) : keeps_threads (@raise A e).
Proof. intros w; apply extends_refl. Qed.

Lemma keeps_eval {A} (o : outcome A) : keeps_threads (eval o).
Proof. intros w; apply extends_refl. Qed.

Lemma keeps_log (r : log_record) : keeps_threads (log r).
Proof. intros w; apply extends_refl. Qed.

Lemma keeps_request remote (e : event) : keeps_threads (request remote e).
Proof. intros w; apply extends_refl. Qed.

Lemma keeps_sleep : keeps_threads sleep.
Proof. intros w; apply extends_refl. Qed.

Lemma keeps_bind {A B} (m : M A) (f : A -> M B) :
  keeps_threads m -> (forall a, keeps_threads (f a)) -> keeps_threads (bind m f).
Proof.
  intros Hm Hf w. unfold bind. specialize (Hm w).
  destruct (m w) as [[a|e] w']; simpl in *; auto.
  eapply extends_trans; [exact Hm | apply Hf].
Qed.

Lemma keeps_try {A} (m : M A) (handler : exn -> M A) :
  keeps_threads m -> (forall e, keeps_threads (handler e)) -> keeps_threads (try m handler).
Proof.
  intros Hm Hh w. unfold try. specialize (Hm w).
  destruct (m w) as [[a|e] w']; simpl in *; auto.
  eapply extends_trans; [exact Hm | apply Hh].
Qed.

Lemma keeps_for_items {A} (items : list A) (body : A -> M unit) :
  (forall x, keeps_threads (body x)) -> keeps_threads (for_items items body).
Proof.
  intros Hb. induction items; simpl.
  - apply keeps_ret.
  - apply keeps_bind; auto.
Qed.

Lemma keeps_for_each (v : value) (body : value -> M unit) :
  (forall x, keeps_threads (body x)) -> keeps_threads (for_each v body).
Proof.
  intros Hb. unfold for_each. apply keeps_bind; [apply keeps_eval|].
  intros items. now apply keeps_for_items.
Qed.

Create HintDb keeps.
#[local] Hint Resolve keeps_ret keeps_raise keeps_eval keeps_log keeps_request
  keeps_sleep : keeps.

Ltac keeps_step :=
  match goal with
  | |- keeps_threads (bind _ _) => apply keeps_bind; [|intros ?]
  | |- keeps_threads (try _ _) => apply keeps_try; [|intros ?]
  | |- keeps_threads (for_each _ _) => apply keeps_for_each; intros ?
  | |- keeps_threads (if ?b then _ else _) => destruct b
  | |- keeps_threads _ => solve [auto with keeps]
  end.

Lemma keeps_send_message remote phone_id message :
  keeps_threads (send_message remote phone_id message).
Proof. unfold send_message. repeat keeps_step. Qed.

Lemma keeps_add_message_to_thread remote thread_id message :
  keeps_threads (add_message_to_thread remote thread_id message).
Proof. unfold add_message_to_thread. repeat keeps_step. Qed.

Lemma keeps_poll remote thread_id run_id attempts :
  keeps_threads (poll remote thread_id run_id attempts).
Proof.
  induction attempts; simpl; [apply keeps_ret|].
  repeat keeps_step.
Qed.

Lemma keeps_run_assistant remote thread_id :
  keeps_threads (run_assistant remote thread_id).
Proof.
  unfold run_assistant. repeat keeps_step. apply keeps_poll.
Qed.

Lemma keeps_get_or_create_thread remote user_id :
  keeps_threads (get_or_create_thread remote user_id).
Proof.
  intros w. unfold get_or_create_thread, bind, threads_contains.
  destruct (Py.hashable user_id); [|apply extends_refl].
  destruct (dict_get (threads w) user_id) eqn:Hget.
  - unfold threads_getitem. rewrite Hget. apply extends_refl.
  - unfold try, bind, request, eval, log, raise, ret, threads_setitem; simpl.
    destruct (json _) as [thread_data|e]; simpl; [|apply extends_refl].
    destruct (Py.getitem thread_data "id") as [thread_id|e]; simpl;
      [|apply extends_refl].
    now apply extends_set_fresh.
Qed.

#[local] Hint Resolve keeps_send_message keeps_add_message_to_thread
  keeps_run_assistant keeps_get_or_create_thread : keeps.

Lemma keeps_process_message remote message contacts :
  keeps_threads (process_message remote message contacts).
Proof. unfold process_message. repeat keeps_step. Qed.

#[local] Hint Resolve keeps_process_message : keeps.

Lemma keeps_handle_change remote change :
  keeps_threads (handle_change remote change).
Proof. unfold handle_change. repeat keeps_step. Qed.

#[local] Hint Resolve keeps_handle_change : keeps.

Lemma keeps_handle_entry remote entry :
  keeps_threads (handle_entry remote entry).
Proof. unfold handle_entry. repeat keeps_step. Qed.

#[local] Hint Resolve keeps_handle_entry : keeps.

Lemma keeps_handle_webhook remote body :
  keeps_threads (handle_webhook remote body).
Proof. unfold handle_webhook. repeat keeps_step. Qed.

Lemma keeps_verify_webhook token mode tok challenge :
  keeps_threads (verify_webhook token mode tok challenge).
Proof. unfold verify_webhook. repeat keeps_step. Qed.

(** ** The handshake view *)

Lemma option_string_eqb_eq (a : option string) (b : string) :
  option_string_eqb a b = true <-> a = Some b.
Proof.
  destruct a as [s|]; simpl.
  - rewrite String.eqb_eq. split; congruence.
  - split; discriminate.
Qed.

(** C4. For every mode, token (each present or absent) and challenge value,
    GET /webhook answers 200 with exactly the challenge as body if and only
    if mode is 'subscribe' and token is the configured verify token; on any
    mismatch the view returns ('Forbidden', 403) whatever the challenge
    parameter is, present or absent, and changes nothing. *)
Theorem verify_webhook_handshake :
  forall (VERIFY_TOKEN : string) (mode token : option string) (w : world),
    (forall challenge : string,
        answer (verify_webhook VERIFY_TOKEN mode token (Some challenge)) w
        = Responded 200 challenge
        <-> (mode = Some "subscribe" /\ token = Some VERIFY_TOKEN))
    /\ (~ (mode = Some "subscribe" /\ token = Some VERIFY_TOKEN) ->
        forall challenge : option string,
          verify_webhook VERIFY_TOKEN mode token challenge w
          = (Return (With_status "Forbidden" 403), w)).
Proof.
  intros VT mode token w.
  unfold answer, verify_webhook.
  destruct (option_string_eqb mode "subscribe") eqn:Hm;
    destruct (option_string_eqb token VT) eqn:Ht; simpl;
    try apply option_string_eqb_eq in Hm; try apply option_string_eqb_eq in Ht.
  - split; [tauto|]. intros H. exfalso; apply H; now split.
  - split; [|reflexivity].
    intros c; split; [discriminate|].
    intros [_ H]. apply option_string_eqb_eq in H. congruence.
  - split; [|reflexivity].
    intros c; split; [discriminate|].
    intros [H _]. apply option_string_eqb_eq in H. congruence.
  - split; [|reflexivity].
    intros c; split; [discriminate|].
    intros [H _]. apply option_string_eqb_eq in H. congruence.
Qed.

Lemma verify_webhook_handshake_witness :
  verify_webhook "12345" (Some "subscribe") (Some "54321") (Some "1158201444")
    empty_world
  = (Return (With_status "Forbidden" 403), empty_world).
Proof.
  apply (proj2 (verify_webhook_handshake "12345" (Some "subscribe")
                  (Some "54321") empty_world)).
  intros [_ H]. discriminate H.
Defined.

(** ** The conversation directory *)

Lemma get_or_create_thread_found remote (user_id thread_id : value) (w : world) :
  Py.hashable user_id = true ->
  dict_get (threads w) user_id = Some thread_id ->
  get_or_create_thread remote user_id w = (Return thread_id, w).
Proof.
  intros Hh Hget.
  unfold get_or_create_thread, bind, threads_contains, threads_getitem.
  rewrite Hh, Hget. simpl. now rewrite Hget.
Qed.

Lemma get_or_create_thread_created remote (user_id thread_id : value) (w : world) :
  Py.hashable user_id = true ->
  dict_get (threads w) user_id = None ->
  created_thread_id (remote (calls w ++ [CreateThread])) = Return thread_id ->
  get_or_create_thread remote user_id w
  = (Return thread_id,
     mkWorld (dict_set (threads w) user_id thread_id)
             (calls w ++ [CreateThread])
             (logged w ++ [Info_created_thread thread_id user_id])).
Proof.
  intros Hh Hget Hid.
  unfold get_or_create_thread, bind, threads_contains.
  rewrite Hh, Hget.
  unfold try, bind, request, eval, threads_setitem, log, ret; simpl.
  unfold created_thread_id, obind in Hid.
  destruct (json _) as [thread_data|e]; [|discriminate].
  simpl. rewrite Hid. reflexivity.
Qed.

Lemma get_or_create_thread_failed remote (user_id : value) (e : exn) (w : world) :
  Py.hashable user_id = true ->
  dict_get (threads w) user_id = None ->
  created_thread_id (remote (calls w ++ [CreateThread])) = Raise e ->
  get_or_create_thread remote user_id w
  = (Raise e,
     mkWorld (threads w) (calls w ++ [CreateThread])
             (logged w ++ [Error_create_thread e])).
Proof.
  intros Hh Hget Hid.
  unfold get_or_create_thread, bind, threads_contains.
  rewrite Hh, Hget.
  unfold try, bind, request, eval, threads_setitem, log, raise, ret; simpl.
  unfold created_thread_id, obind in Hid.
  destruct (json _) as [thread_data|e']; simpl.
  - now rewrite Hid.
  - congruence.
Qed.

(** Whatever happens, a resolve for an absent hashable [user_id] issues
    exactly the create call. *)
Lemma get_or_create_thread_absent_calls remote (user_id : value) (w : world) :
  Py.hashable user_id = true ->
  dict_get (threads w) user_id = None ->
  calls (snd (get_or_create_thread remote user_id w)) = calls w ++ [CreateThread].
Proof.
  intros Hh Hget.
  destruct (created_thread_id (remote (calls w ++ [CreateThread]))) as [t|e] eqn:E.
  - now rewrite (get_or_create_thread_created _ _ _ _ Hh Hget E).
  - now rewrite (get_or_create_thread_failed _ _ _ _ Hh Hget E).
Qed.

(** C1. For a user_id not yet in [threads] whose create call succeeds with
    handle [thread_id], get_or_create_thread issues exactly one call, the
    create call, stores the handle and returns it; in every later state
    that still holds the entry, get_or_create_thread returns the same
    handle and changes nothing (so issues no call), whatever the remote
    side would answer; and every entry of [threads] survives, with its
    handle, every run of handle_webhook, verify_webhook and health_check
    (and so of process_message and the services they call). *)
Theorem get_or_create_thread_once :
  (forall remote (user_id thread_id : value) (w : world),
      Py.hashable user_id = true ->
      dict_get (threads w) user_id = None ->
      created_thread_id (remote (calls w ++ [CreateThread])) = Return thread_id ->
      exists w',
        get_or_create_thread remote user_id w = (Return thread_id, w')
        /\ calls w' = calls w ++ [CreateThread]
        /\ dict_get (threads w') user_id = Some thread_id
        /\ forall remote' (w'' : world),
            dict_get (threads w'') user_id = Some thread_id ->
            get_or_create_thread remote' user_id w'' = (Return thread_id, w''))
  /\ (forall remote VERIFY_TOKEN body mode token challenge (w : world),
        extends (threads w) (threads (snd (handle_webhook remote body w)))
        /\ extends (threads w)
             (threads (snd (verify_webhook VERIFY_TOKEN mode token challenge w)))
        /\ extends (threads w) (threads (snd (health_check w)))).
Proof.
  split.
  - intros remote user_id thread_id w Hh Hget Hid.
    eexists. split; [now apply get_or_create_thread_created|].
    simpl. split; [reflexivity|]. split.
    + apply dict_get_set_same. now apply eq_refl_hashable.
    + intros remote' w'' Hget'. now apply get_or_create_thread_found.
  - intros remote VT body mode token challenge w. repeat split.
    + apply keeps_handle_webhook.
    + apply keeps_verify_webhook.
    + apply extends_refl.
Qed.

Lemma get_or_create_thread_once_witness :
  exists w',
    get_or_create_thread (scripted_remote [] []) (VStr "111") empty_world
    = (Return (VStr "thread_1"), w')
    /\ calls w' = calls empty_world ++ [CreateThread]
    /\ dict_get (threads w') (VStr "111") = Some (VStr "thread_1")
    /\ forall remote' (w'' : world),
        dict_get (threads w'') (VStr "111") = Some (VStr "thread_1") ->
        get_or_create_thread remote' (VStr "111") w'' = (Return (VStr "thread_1"), w'').
Proof.
  apply (proj1 get_or_create_thread_once (scripted_remote [] []) (VStr "111")
           (VStr "thread_1") empty_world); reflexivity.
Defined.

(** C6. For a user_id not in [threads], when the create call fails (the
    request or raise_for_status() raises, the body is not JSON, or it has
    no "id"), get_or_create_thread raises that exception to its caller,
    leaves [threads] as it was, and a resolve for the same user_id from the
    resulting state issues the create call again. *)
Theorem create_failure_propagates :
  forall remote (user_id : value) (e : exn) (w : world),
    Py.hashable user_id = true ->
    dict_get (threads w) user_id = None ->
    created_thread_id (remote (calls w ++ [CreateThread])) = Raise e ->
    exists w',
      get_or_create_thread remote user_id w = (Raise e, w')
      /\ threads w' = threads w
      /\ calls w' = calls w ++ [CreateThread]
      /\ forall remote',
          calls (snd (get_or_create_thread remote' user_id w'))
          = calls w' ++ [CreateThread].
Proof.
  intros remote user_id e w Hh Hget Hid.
  eexists. split; [now apply get_or_create_thread_failed|].
  simpl. repeat split.
  intros remote'. now apply get_or_create_thread_absent_calls.
Qed.

Lemma create_failure_propagates_witness :
  exists w',
    get_or_create_thread unreachable_remote (VStr "111") empty_world
    = (Raise HTTPError, w')
    /\ threads w' = threads empty_world
    /\ calls w' = calls empty_world ++ [CreateThread]
    /\ forall remote',
        calls (snd (get_or_create_thread remote' (VStr "111") w'))
        = calls w' ++ [CreateThread].
Proof.
  apply (create_failure_propagates unreachable_remote (VStr "111") HTTPError
           empty_world); reflexivity.
Defined.

(** ** The polling loop *)

Lemma status_checks_app (a b : list event) :
  status_checks (a ++ b) = (status_checks a + status_checks b)%nat.
Proof. unfold status_checks. now rewrite filter_app, length_app. Qed.

Lemma status_checks_polls (thread_id run_id : value) (n : nat) :
  status_checks (polls thread_id run_id n) = n.
Proof.
  induction n; simpl; [reflexivity|].
  unfold status_checks in *. simpl. now rewrite IHn.
Qed.

Ltac count_checks :=
  simpl; rewrite ?status_checks_app; unfold status_checks; simpl; lia.

Lemma poll_at_most remote (thread_id run_id : value) (n : nat) (w : world) :
  (status_checks (calls (snd (poll remote thread_id run_id n w)))
   <= status_checks (calls w) + n)%nat.
Proof.
  revert w. induction n as [|n IH]; intros w; simpl; [lia|].
  unfold bind, sleep, request, eval, log, ret; simpl.
  destruct (json _) as [body|e]; [|count_checks].
  destruct (Py.getitem body "status") as [status|e]; [|count_checks].
  destruct (Py.eq status (VStr "completed")).
  - simpl.
    destruct (json _) as [listing|e]; [|count_checks].
    destruct (Py.getitem listing "data") as [messages|e]; [|count_checks].
    destruct (Py.truthy messages); [destruct (first_text messages)|];
      count_checks.
  - destruct (run_ended status); [count_checks|].
    eapply Nat.le_trans; [apply IH|]. count_checks.
Qed.

Lemma after_after (w : world) (a b : list event) :
  after (after w a) b = after w (a ++ b).
Proof. unfold after; simpl. now rewrite app_assoc. Qed.

Ltac normalize_history :=
  unfold after; simpl; rewrite <- ?app_assoc; simpl.

(** A round of the loop that finds the run neither completed nor ended. *)
Lemma poll_still_going remote (thread_id run_id status : value) (n : nat) (w : world) :
  replies remote (calls w ++ [Sleep; GetRun thread_id run_id]) "status" status ->
  Py.eq status (VStr "completed") = false ->
  run_ended status = false ->
  poll remote thread_id run_id (S n) w
  = poll remote thread_id run_id n (after w [Sleep; GetRun thread_id run_id]).
Proof.
  intros (body & Hr & Hs) Hc He. simpl.
  unfold bind, sleep, request, eval; simpl.
  rewrite <- app_assoc; simpl. rewrite Hr; simpl. rewrite Hs, Hc, He.
  reflexivity.
Qed.

(** The round of the loop that finds the run completed. *)
Lemma poll_completed remote (thread_id run_id messages : value) (n : nat) (w : world) :
  replies remote (calls w ++ [Sleep; GetRun thread_id run_id]) "status"
    (VStr "completed") ->
  replies remote
    (calls w ++ [Sleep; GetRun thread_id run_id; ListMessages thread_id])
    "data" messages ->
  poll remote thread_id run_id (S n) w
  = (if Py.truthy messages then first_text messages else Return VNone,
     after w [Sleep; GetRun thread_id run_id; ListMessages thread_id]).
Proof.
  intros (body & Hr & Hs) (listing & Hl & Hd). simpl.
  unfold bind, sleep, request, eval, ret, after; simpl.
  rewrite <- !app_assoc; simpl. rewrite Hr; simpl. rewrite Hs; simpl.
  rewrite <- !app_assoc; simpl. rewrite Hl; simpl. rewrite Hd.
  destruct (Py.truthy messages); reflexivity.
Qed.

Lemma run_assistant_started remote (thread_id run_id : value) (w : world) :
  replies remote (calls w ++ [StartRun thread_id]) "id" run_id ->
  run_assistant remote thread_id w
  = try (poll remote thread_id run_id max_attempts)
        (fun e => log (Error_run_assistant e) ;;; ret VNone)
        (after w [StartRun thread_id]).
Proof.
  intros (run & Hr & Hid).
  unfold run_assistant, try, bind, request, eval, after; simpl.
  rewrite Hr; simpl. rewrite Hid. reflexivity.
Qed.

Lemma poll_never_done remote (thread_id run_id : value) :
  (forall history t r, replies remote (history ++ [GetRun t r]) "status" (VStr "running")) ->
  forall (n : nat) (w : world),
    poll remote thread_id run_id n w
    = (Return VNone, after w (polls thread_id run_id n)).
Proof.
  intros Hrun. induction n as [|n IH]; intros w.
  - simpl. unfold ret, after. rewrite app_nil_r. now destruct w.
  - rewrite (poll_still_going remote thread_id run_id (VStr "running"));
      try reflexivity.
    + rewrite IH, after_after. reflexivity.
    + replace (calls w ++ [Sleep; GetRun thread_id run_id])
        with ((calls w ++ [Sleep]) ++ [GetRun thread_id run_id])
        by (now rewrite <- app_assoc).
      apply Hrun.
Qed.

Lemma run_assistant_at_most remote (thread_id : value) (w : world) :
  (status_checks (calls (snd (run_assistant remote thread_id w)))
   <= status_checks (calls w) + 10)%nat.
Proof.
  unfold run_assistant, try, bind, request, eval, log, ret. cbv beta iota.
  destruct (json _) as [run|e]; [|count_checks].
  destruct (Py.getitem run "id") as [run_id|e]; [|count_checks].
  match goal with
  | |- context [poll remote thread_id run_id max_attempts ?w1] =>
      pose proof (poll_at_most remote thread_id run_id max_attempts w1) as H;
      destruct (poll remote thread_id run_id max_attempts w1) as [[v|e] w2]
  end; cbn [snd calls] in *; rewrite status_checks_app in H;
    unfold max_attempts in H; unfold status_checks in *; simpl in *; lia.
Qed.

(** C2. Whatever the remote side answers, run_assistant issues at most 10
    job-status requests; and when the run is started and every status
    request is answered 'running', it issues exactly 10 of them, each after
    a sleep, nothing after the tenth, and returns None. *)
Theorem run_assistant_ten_checks :
  forall remote (thread_id : value) (w : world),
    (status_checks (calls (snd (run_assistant remote thread_id w)))
     <= status_checks (calls w) + 10)%nat
    /\ forall run_id : value,
        replies remote (calls w ++ [StartRun thread_id]) "id" run_id ->
        (forall history t r,
            replies remote (history ++ [GetRun t r]) "status" (VStr "running")) ->
        run_assistant remote thread_id w
        = (Return VNone,
           after w (StartRun thread_id :: polls thread_id run_id 10))
        /\ status_checks (calls (snd (run_assistant remote thread_id w)))
           = (status_checks (calls w) + 10)%nat.
Proof.
  intros remote thread_id w. split; [apply run_assistant_at_most|].
  intros run_id Hstart Hrun.
  assert (E : run_assistant remote thread_id w
              = (Return VNone,
                 after w (StartRun thread_id :: polls thread_id run_id 10))).
  { rewrite (run_assistant_started _ _ _ _ Hstart). unfold try.
    rewrite (poll_never_done _ _ _ Hrun), after_after. reflexivity. }
  split; [exact E|]. rewrite E. count_checks.
Qed.

Lemma run_assistant_ten_checks_witness :
  run_assistant (scripted_remote [] []) (VStr "thread_1") empty_world
  = (Return VNone,
     after empty_world
       (StartRun (VStr "thread_1") :: polls (VStr "thread_1") (VStr "run_1") 10))
  /\ status_checks
       (calls (snd (run_assistant (scripted_remote [] []) (VStr "thread_1") empty_world)))
     = (status_checks (calls empty_world) + 10)%nat.
Proof.
  apply (proj2 (run_assistant_ten_checks (scripted_remote [] [])
                  (VStr "thread_1") empty_world) (VStr "run_1")).
  - eexists. split; reflexivity.
  - intros history t r. unfold replies, scripted_remote.
    rewrite last_last. eexists. split; [reflexivity|].
    simpl. now destruct (status_checks (history ++ [GetRun t r]) - 1)%nat.
Defined.

(** C3. When the run is started and the three first status requests are
    answered running, running, completed, run_assistant asks for the
    message list after exactly 3 status checks; with a non-empty list it
    returns the text of the list's first item, with an empty list it
    returns None. *)
Theorem run_assistant_running_running_completed :
  forall remote (thread_id run_id : value) (messages : list value) (w : world),
    let check := [Sleep; GetRun thread_id run_id] in
    let h0 := calls w ++ [StartRun thread_id] in
    let w' := after w (StartRun thread_id ::
                       check ++ check ++ check ++ [ListMessages thread_id]) in
    replies remote h0 "id" run_id ->
    replies remote (h0 ++ check) "status" (VStr "running") ->
    replies remote (h0 ++ check ++ check) "status" (VStr "running") ->
    replies remote (h0 ++ check ++ check ++ check) "status" (VStr "completed") ->
    replies remote (h0 ++ check ++ check ++ check ++ [ListMessages thread_id])
      "data" (VList messages) ->
    status_checks (calls w') = (status_checks (calls w) + 3)%nat
    /\ (forall first rest text,
           messages = first :: rest ->
           message_text first = Return text ->
           run_assistant remote thread_id w = (Return text, w'))
    /\ (messages = [] ->
        run_assistant remote thread_id w = (Return VNone, w')).
Proof.
  intros remote thread_id run_id messages w check h0 w' H0 H1 H2 H3 H4.
  subst check h0 w'.
  rewrite <- ?app_assoc in H1, H2, H3, H4; simpl in H1, H2, H3, H4.
  assert (E : run_assistant remote thread_id w
              = try (eval (if Py.truthy (VList messages)
                           then first_text (VList messages)
                           else Return VNone))
                    (fun e => log (Error_run_assistant e) ;;; ret VNone)
                    (after w (StartRun thread_id ::
                              [Sleep; GetRun thread_id run_id] ++
                              [Sleep; GetRun thread_id run_id] ++
                              [Sleep; GetRun thread_id run_id] ++
                              [ListMessages thread_id]))).
  { rewrite (run_assistant_started _ _ _ _ H0). unfold try, max_attempts.
    rewrite (poll_still_going remote thread_id run_id (VStr "running"));
      [|normalize_history; exact H1|reflexivity|reflexivity].
    rewrite (poll_still_going remote thread_id run_id (VStr "running"));
      [|normalize_history; exact H2|reflexivity|reflexivity].
    rewrite (poll_completed remote thread_id run_id (VList messages));
      [|normalize_history; exact H3|normalize_history; exact H4].
    rewrite !after_after. reflexivity. }
  split; [count_checks|]. split.
  - intros first rest text -> Ht. rewrite E.
    unfold try, eval, first_text. simpl. now rewrite Ht.
  - intros ->. rewrite E. reflexivity.
Qed.

Lemma run_assistant_running_running_completed_witness :
  run_assistant
    (scripted_remote ["running"; "running"; "completed"] [text_message "Hi there"])
    (VStr "thread_1") empty_world
  = (Return (VStr "Hi there"),
     after empty_world
       [StartRun (VStr "thread_1");
        Sleep; GetRun (VStr "thread_1") (VStr "run_1");
        Sleep; GetRun (VStr "thread_1") (VStr "run_1");
        Sleep; GetRun (VStr "thread_1") (VStr "run_1");
        ListMessages (VStr "thread_1")]).
Proof.
  refine (proj1 (proj2 (run_assistant_running_running_completed
            (scripted_remote ["running"; "running"; "completed"]
               [text_message "Hi there"])
            (VStr "thread_1") (VStr "run_1") [text_message "Hi there"]
            empty_world _ _ _ _ _))
          (text_message "Hi there") [] (VStr "Hi there") eq_refl eq_refl);
    eexists; split; reflexivity.
Defined.

(** ** The orchestrator *)

Lemma process_message_returns remote (message contacts : value) (w : world) :
  fst (process_message remote message contacts w) = Return tt.
Proof.
  unfold process_message, try.
  match goal with
  | |- fst (match ?m w with _ => _ end) = _ => destruct (m w) as [[[]|e] w']
  end; reflexivity.
Qed.

(** C8. For every message entry without a 'from' member, and whatever the
    contacts, the remote side and the state are, process_message returns
    having only logged one error record: [threads] and the outbound calls
    are as before, so no conversation was looked up or created, nothing
    appended, no run started and no reply sent. *)
Theorem process_message_without_sender :
  forall remote (message contacts : value) (w : world),
    sender_id message = None ->
    exists r,
      process_message remote message contacts w = (Return tt, logging w [r])
      /\ (r = Error_no_phone_id \/ r = Error_processing_message AttributeError).
Proof.
  intros remote message contacts w Hs.
  unfold process_message, try, bind, eval, log, logging.
  destruct message; simpl in *;
    try (eexists; split; [reflexivity | now right]).
  rewrite Hs.
  destruct (Py.lookup "text" items) as [text|]; simpl.
  - destruct (Py.get text "body" (VStr EmptyString)) as [message_text|e] eqn:E; simpl.
    + eexists; split; [reflexivity | now left].
    + destruct text; simpl in E; try discriminate; inversion E; subst;
        eexists; split; try reflexivity; now right.
  - eexists; split; [reflexivity | now left].
Qed.

Lemma process_message_without_sender_witness :
  exists r,
    process_message (scripted_remote [] [])
      (VDict [("text", VDict [("body", VStr "Hello")])]) (VList []) empty_world
    = (Return tt, logging empty_world [r])
    /\ (r = Error_no_phone_id \/ r = Error_processing_message AttributeError).
Proof.
  apply (process_message_without_sender (scripted_remote [] [])
           (VDict [("text", VDict [("body", VStr "Hello")])]) (VList [])
           empty_world).
  reflexivity.
Defined.

(** ** The delivery view *)

(** Evaluate the control flow, not the comparisons. *)
Ltac calm :=
  cbn -[Py.eq Py.lookup Py.is_substring existsb String.eqb Qeq_bool Z.eqb].

Lemma not_for_us_false (data : value) :
  not_for_us data = Return false ->
  exists d, data = VDict d
            /\ Py.lookup "object" d = Some (VStr "whatsapp_business_account").
Proof.
  unfold not_for_us, or_else, obind.
  destruct data; calm; try discriminate.
  - destruct b; calm; discriminate.
  - destruct (z =? 0); calm; discriminate.
  - destruct (Qeq_bool q 0); calm; discriminate.
  - destruct (s =? EmptyString)%string; calm; [discriminate|].
    destruct (Py.is_substring "object" s); calm; discriminate.
  - destruct items; calm; [discriminate|].
    destruct (existsb (Py.eq (VStr "object")) (v :: items)); calm; discriminate.
  - destruct items as [|kv d]; [discriminate|].
    set (d0 := kv :: d). calm.
    destruct (Py.lookup "object" d0) as [o|] eqn:E; calm; [|discriminate].
    destruct (Py.eq o (VStr "whatsapp_business_account")) eqn:Eo; calm;
      [|discriminate].
    intros _. apply eq_str_true in Eo. subst. now exists d0.
Qed.

Lemma handle_webhook_ok remote (body : request_body) (w : world) :
  fst (handle_webhook remote body w) = Return (With_status "OK" 200).
Proof.
  unfold handle_webhook, try, bind, eval, log, ret.
  destruct (get_json body) as [data|e]; [|reflexivity].
  destruct (not_for_us data) as [[|]|e]; try reflexivity.
  destruct (Py.get data "entry" (VList [])) as [entries|e]; [|reflexivity].
  match goal with
  | |- context [for_each entries ?f ?w1] =>
      destruct (for_each entries f w1) as [[[]|e] w2]
  end; reflexivity.
Qed.

(** C5. Whatever the request body (parsable or not), the remote side and
    the state are, POST /webhook answers 200 'OK', also when an exception
    is raised inside; and when the body has no top-level 'object' member or
    one that is not 'whatsapp_business_account', the view leaves [threads]
    and the outbound calls as they were and logs nothing but its own
    records: no message is processed. *)
Theorem handle_webhook_always_ok :
  forall remote (body : request_body) (w : world),
    answer (handle_webhook remote body) w = Responded 200 "OK"
    /\ (object_field body <> Some (VStr "whatsapp_business_account") ->
        exists rs,
          snd (handle_webhook remote body w) = logging w rs
          /\ Forall webhook_record rs).
Proof.
  intros remote body w. split.
  - unfold answer. now rewrite handle_webhook_ok.
  - intros Hobj.
    unfold handle_webhook, try, bind, eval, log, ret, logging.
    destruct body as [|data]; simpl.
    + eexists; split; [reflexivity|]. repeat constructor.
    + destruct (not_for_us data) as [[|]|e] eqn:E; simpl.
      * eexists; split; [reflexivity|]. repeat constructor.
      * exfalso. apply not_for_us_false in E. destruct E as (d & -> & E).
        apply Hobj. exact E.
      * rewrite <- app_assoc. eexists; split; [reflexivity|].
        repeat constructor.
Qed.

Lemma handle_webhook_always_ok_witness :
  exists rs,
    snd (handle_webhook (scripted_remote [] [])
           (Json (VDict [("object", VStr "page"); ("entry", VList [VInt 7])]))
           empty_world)
    = logging empty_world rs
    /\ Forall webhook_record rs.
Proof.
  apply (proj2 (handle_webhook_always_ok (scripted_remote [] [])
                  (Json (VDict [("object", VStr "page"); ("entry", VList [VInt 7])]))
                  empty_world)).
  simpl. discriminate.
Defined.

(** ** What a statement may emit *)

Section Emits.

Variable P : event -> Prop.

Lemma emits_nothing {A} (m : M A) :
  (forall w, calls (snd (m w)) = calls w) -> emits P m.
Proof.
  intros H w. exists []. rewrite H, app_nil_r. now split.
Qed.

Lemma emits_ret {A} (a : A) : emits P (ret a).
Proof. now apply emits_nothing. Qed.

Lemma emits_raise {A} (e : exn) : emits P (@raise A e).
Proof. now apply emits_nothing. Qed.

Lemma emits_eval {A} (o : outcome A) : emits P (eval o).
Proof. now apply emits_nothing. Qed.

Lemma emits_log (r : log_record) : emits P (log r).
Proof. now apply emits_nothing. Qed.

Lemma emits_request remote (e : event) : P e -> emits P (request remote e).
Proof. intros He w. exists [e]. split; [reflexivity|]. now constructor. Qed.

Lemma emits_sleep : P Sleep -> emits P sleep.
Proof. intros He w. exists [Sleep]. split; [reflexivity|]. now constructor. Qed.

Lemma emits_bind {A B} (m : M A) (f : A -> M B) :
  emits P m -> (forall a, emits P (f a)) -> emits P (bind m f).
Proof.
  intros Hm Hf w. unfold bind. destruct (Hm w) as (es & E & HP).
  destruct (m w) as [[a|e] w']; simpl in *.
  - destruct (Hf a w') as (es' & E' & HP').
    exists (es ++ es'). rewrite E', E, app_assoc. split; [reflexivity|].
    apply Forall_app; now split.
  - now exists es.
Qed.

(** [bind] when the first statement is known to return [a]. *)
Lemma emits_bind_returning {A B} (m : M A) (f : A -> M B) (a : A) :
  (forall w, fst (m w) = Return a) ->
  emits P m -> emits P (f a) -> emits P (bind m f).
Proof.
  intros Hr Hm Hf w. unfold bind. destruct (Hm w) as (es & E & HP).
  specialize (Hr w).
  destruct (m w) as [[a'|e] w']; simpl in *; [|discriminate].
  injection Hr as ->.
  destruct (Hf w') as (es' & E' & HP').
  exists (es ++ es'). rewrite E', E, app_assoc. split; [reflexivity|].
  apply Forall_app; now split.
Qed.

Lemma emits_try {A} (m : M A) (handler : exn -> M A) :
  emits P m -> (forall e, emits P (handler e)) -> emits P (try m handler).
Proof.
  intros Hm Hh w. unfold try. destruct (Hm w) as (es & E & HP).
  destruct (m w) as [[a|e] w']; simpl in *.
  - now exists es.
  - destruct (Hh e w') as (es' & E' & HP').
    exists (es ++ es'). rewrite E', E, app_assoc. split; [reflexivity|].
    apply Forall_app; now split.
Qed.

Lemma emits_for_items {A} (items : list A) (body : A -> M unit) :
  (forall x, emits P (body x)) -> emits P (for_items items body).
Proof.
  intros Hb. induction items; simpl.
  - apply emits_ret.
  - apply emits_bind; auto.
Qed.

Lemma emits_for_each (v : value) (body : value -> M unit) :
  (forall x, emits P (body x)) -> emits P (for_each v body).
Proof.
  intros Hb. unfold for_each. apply emits_bind; [apply emits_eval|].
  intros items. now apply emits_for_items.
Qed.

End Emits.

Create HintDb emits.
#[local] Hint Resolve emits_ret emits_raise emits_eval emits_log : emits.
#[local] Hint Extern 1 (emits _ (request _ _)) =>
  apply emits_request; exact I : emits.
#[local] Hint Extern 1 (emits _ sleep) => apply emits_sleep; exact I : emits.

Ltac emits_step :=
  match goal with
  | |- emits _ (bind _ _) => apply emits_bind; [|intros ?]
  | |- emits _ (try _ _) => apply emits_try; [|intros ?]
  | |- emits _ (for_each _ _) => apply emits_for_each; intros ?
  | |- emits _ (if ?b then _ else _) => destruct b
  | |- emits _ _ => solve [auto with emits]
  end.

Lemma get_or_create_thread_before_run remote (user_id : value) :
  emits before_run (get_or_create_thread remote user_id).
Proof.
  unfold get_or_create_thread. apply emits_bind.
  - apply emits_nothing. intros w. unfold threads_contains.
    now destruct (Py.hashable user_id).
  - intros [|].
    + apply emits_nothing. intros w. unfold threads_getitem.
      now destruct (dict_get (threads w) user_id).
    + repeat emits_step. now apply emits_nothing.
Qed.

Lemma add_message_to_thread_before_run remote (thread_id message : value) :
  emits before_run (add_message_to_thread remote thread_id message).
Proof. unfold add_message_to_thread. repeat emits_step. Qed.

Lemma add_message_to_thread_fails remote (thread_id message : value) :
  (forall history t m, remote (history ++ [AddMessage t m]) = Unsuccessful) ->
  forall w, fst (add_message_to_thread remote thread_id message w) = Return false.
Proof.
  intros H w. unfold add_message_to_thread, try, bind, request, eval; simpl.
  now rewrite H.
Qed.

(** C7. When add_message_to_thread returns False, process_message, for
    every message, contacts and state, issues no call other than the thread
    creation and the append itself: no run is started, no status is polled,
    no reply is sent. *)
Theorem append_failure_stops :
  forall remote (message contacts : value),
    (forall thread_id text w,
        fst (add_message_to_thread remote thread_id text w) = Return false) ->
    emits before_run (process_message remote message contacts).
Proof.
  intros remote message contacts Hfail.
  unfold process_message.
  apply emits_try; [|intros e; apply emits_log].
  do 3 (apply emits_bind; [apply emits_eval|intros ?]).
  destruct (negb (Py.truthy a)); [apply emits_log|].
  apply emits_bind; [apply emits_eval|intros contact_name].
  apply emits_bind; [apply emits_log|intros _].
  apply emits_bind; [apply get_or_create_thread_before_run|intros thread_id].
  apply emits_bind_returning with (a := false).
  - apply Hfail.
  - apply add_message_to_thread_before_run.
  - simpl. apply emits_log.
Qed.

Lemma append_failure_stops_witness :
  exists es,
    calls (snd (process_message refusing_append (sample_message "Hello")
                  sample_contacts empty_world))
    = calls empty_world ++ es
    /\ Forall before_run es.
Proof.
  apply (append_failure_stops refusing_append (sample_message "Hello")
           sample_contacts).
  intros thread_id text w.
  unfold add_message_to_thread, try, bind, request, eval, refusing_append.
  simpl. rewrite last_last. reflexivity.
Defined.

(** ** The walk over a notification *)

Lemma deliver_returns remote (d : delivery) (w : world) :
  fst (deliver remote d w) = Return tt.
Proof. destruct d; [reflexivity | apply process_message_returns]. Qed.

Lemma for_items_deliver_returns remote (ds : list delivery) (w : world) :
  fst (for_items ds (deliver remote) w) = Return tt.
Proof.
  revert w. induction ds as [|d ds IH]; intros w; simpl; [reflexivity|].
  unfold bind. pose proof (deliver_returns remote d w) as H.
  destruct (deliver remote d w) as [[[]|e] w']; simpl in H; [apply IH|discriminate].
Qed.

Lemma for_items_app {A} (a b : list A) (body : A -> M unit) (w : world) :
  for_items (a ++ b) body w = (for_items a body ;;; for_items b body) w.
Proof.
  revert w. induction a as [|x a IH]; intros w; simpl; [reflexivity|].
  unfold bind in *. destruct (body x w) as [[[]|e] w']; [apply IH|reflexivity].
Qed.

Lemma for_items_map {A B} (F : A -> B) (body : A -> M unit) (g : B -> M unit)
    (xs : list A) :
  (forall x w, body x w = g (F x) w) ->
  forall w, for_items xs body w = for_items (map F xs) g w.
Proof.
  intros H. induction xs as [|x xs IH]; intros w; simpl; [reflexivity|].
  unfold bind. rewrite H. destruct (g (F x) w) as [[[]|e] w']; [apply IH|reflexivity].
Qed.

Lemma for_items_flat_map {A B} (F : A -> list B) (body : A -> M unit)
    (g : B -> M unit) (xs : list A) :
  (forall x, In x xs -> forall w, body x w = for_items (F x) g w) ->
  forall w, for_items xs body w = for_items (flat_map F xs) g w.
Proof.
  induction xs as [|x xs IH]; intros H w; simpl; [reflexivity|].
  rewrite for_items_app. unfold bind. rewrite (H x (or_introl Logic.eq_refl)).
  destruct (for_items (F x) g w) as [[[]|e] w']; [|reflexivity].
  apply IH. intros y Hy. apply H. now right.
Qed.

Lemma get_member (d : list (string * value)) (key : string) (default : value) :
  Py.get (VDict d) key default = Return (member key (VDict d) default).
Proof. reflexivity. Qed.

Lemma contains_member (d : list (string * value)) (key : string) :
  Py.contains key (VDict d) = Return (has_member key (VDict d)).
Proof. reflexivity. Qed.

Lemma handle_change_walk remote (change : value) (w : world) :
  well_formed_change change = true ->
  handle_change remote change w
  = for_items (change_deliveries change) (deliver remote) w.
Proof.
  unfold well_formed_change, handle_change, change_deliveries.
  destruct change as [| | | | | |d]; try discriminate.
  cbn [is_dict andb]. rewrite !get_member. unfold bind, eval.
  cbv beta iota zeta.
  destruct (Py.eq (member "field" (VDict d) VNone) (VStr "messages"));
    [|reflexivity].
  destruct (member "value" (VDict d) (VDict [])) as [| | | | | |dv];
    try discriminate.
  cbn [is_dict andb]. rewrite contains_member, !get_member.
  destruct (has_member "statuses" (VDict dv)).
  - intros _. reflexivity.
  - cbn [orb].
    destruct (member "messages" (VDict dv) (VList [])) as [| | | | |ms|];
      try discriminate.
    intros _. unfold for_each, bind, eval. cbn [Py.iterate elements].
    apply for_items_map. intros message w0. reflexivity.
Qed.

Lemma handle_entry_walk remote (entry : value) (w : world) :
  well_formed_entry entry = true ->
  handle_entry remote entry w
  = for_items (entry_deliveries entry) (deliver remote) w.
Proof.
  unfold well_formed_entry, handle_entry, entry_deliveries.
  destruct entry as [| | | | | |d]; try discriminate.
  cbn [is_dict andb]. rewrite get_member. unfold bind, eval.
  destruct (member "changes" (VDict d) (VList [])) as [| | | | |changes|];
    try discriminate.
  cbn [is_list_of elements]. intros Hwf.
  unfold for_each, bind, eval. cbn [Py.iterate].
  apply for_items_flat_map. intros change Hin w0.
  apply handle_change_walk.
  rewrite forallb_forall in Hwf. now apply Hwf.
Qed.

(** The model's loop over deliveries does what handing them over one
    after the other does. *)
Lemma for_items_deliver_fold remote (ds : list delivery) (w : world) :
  snd (for_items ds (deliver remote) w) = after_deliveries remote ds w.
Proof.
  unfold after_deliveries. revert w.
  induction ds as [|d ds IH]; intros w; [reflexivity|].
  cbn [for_items fold_left]. unfold bind.
  pose proof (deliver_returns remote d w) as Hret.
  assert (Hd : snd (deliver remote d w) = after_delivery remote w d)
    by (destruct d; reflexivity).
  destruct (deliver remote d w) as [[[]|e] w']; cbn [fst snd] in *;
    [|discriminate].
  rewrite <- Hd. apply IH.
Qed.

(** C9. For every notification of the provider's shape that carries the
    'whatsapp_business_account' discriminator, POST /webhook answers 'OK'
    and leaves the world that results from the receipt's log record
    followed, in order over every entry and every one of its changes whose
    field is 'messages', by: one log record and nothing else when the
    change's value carries statuses, and otherwise one run of
    process_message on each message of the value, with the value's
    contacts, each from the world the previous one left. *)
Theorem handle_webhook_walks :
  forall remote (data : value) (w : world),
    object_field (Json data) = Some (VStr "whatsapp_business_account") ->
    well_formed_notification data = true ->
    handle_webhook remote (Json data) w
    = (Return (With_status "OK" 200),
       fold_left
         (fun (w' : world) (d : delivery) =>
            match d with
            | Status_update => logging w' [Info_status_update]
            | Message message contacts =>
                snd (process_message remote message contacts w')
            end)
         (notification_deliveries data)
         (logging w [Info_received_webhook data])).
Proof.
  intros remote data w Hobj Hwf.
  change (handle_webhook remote (Json data) w
          = (Return (With_status "OK" 200),
             after_deliveries remote (notification_deliveries data)
               (logging w [Info_received_webhook data]))).
  rewrite <- for_items_deliver_fold.
  unfold well_formed_notification in Hwf.
  destruct data as [| | | | | |d]; try discriminate.
  cbn [object_field is_dict andb] in *.
  assert (Hnot : not_for_us (VDict d) = Return false).
  { unfold not_for_us, or_else, obind.
    cbn [Py.contains Py.getitem Py.truthy]. rewrite Hobj.
    destruct d; [discriminate|]. reflexivity. }
  unfold handle_webhook, try, bind, eval, log, ret.
  cbn [get_json]. rewrite Hnot, get_member.
  unfold notification_deliveries.
  destruct (member "entry" (VDict d) (VList [])) as [| | | | |entries|];
    try discriminate.
  cbn [is_list_of elements] in *.
  unfold for_each, bind, eval. cbn [Py.iterate].
  fold (logging w [Info_received_webhook (VDict d)]).
  rewrite (for_items_flat_map entry_deliveries (handle_entry remote)
             (deliver remote) entries).
  - pose proof (for_items_deliver_returns remote
                  (flat_map entry_deliveries entries)
                  (logging w [Info_received_webhook (VDict d)])) as Hret.
    destruct (for_items _ _ _) as [[[]|e] w']; simpl in *;
      [reflexivity|discriminate].
  - intros entry Hin w0. apply handle_entry_walk.
    rewrite forallb_forall in Hwf. now apply Hwf.
Qed.

Example sample_notification_deliveries :
  notification_deliveries sample_notification
  = [Status_update;
     Message (sample_message "Hello") sample_contacts;
     Message (sample_message "Again") sample_contacts].
Proof. reflexivity. Qed.

Lemma handle_webhook_walks_witness :
  handle_webhook
    (scripted_remote ["completed"; "completed"] [text_message "Hi there"])
    (Json sample_notification) empty_world
  = (Return (With_status "OK" 200),
     mkWorld
       [(VStr "111", VStr "thread_1")]
       [CreateThread;
        AddMessage (VStr "thread_1") (VStr "Hello");
        StartRun (VStr "thread_1");
        Sleep; GetRun (VStr "thread_1") (VStr "run_1");
        ListMessages (VStr "thread_1");
        SendMessage (VStr "111") (VStr "Hi there");
        AddMessage (VStr "thread_1") (VStr "Again");
        StartRun (VStr "thread_1");
        Sleep; GetRun (VStr "thread_1") (VStr "run_1");
        ListMessages (VStr "thread_1");
        SendMessage (VStr "111") (VStr "Hi there")]
       [Info_received_webhook sample_notification;
        Info_status_update;
        Info_received_message (VStr "Ann") (VStr "111") (VStr "Hello");
        Info_created_thread (VStr "thread_1") (VStr "111");
        Info_ai_response (VStr "Ann") (VStr "Hi there");
        Info_message_sent (VStr "111");
        Info_response_sent (VStr "Ann");
        Info_received_message (VStr "Ann") (VStr "111") (VStr "Again");
        Info_ai_response (VStr "Ann") (VStr "Hi there");
        Info_message_sent (VStr "111");
        Info_response_sent (VStr "Ann")]).
Proof.
  exact (eq_trans
           (handle_webhook_walks
              (scripted_remote ["completed"; "completed"] [text_message "Hi there"])
              sample_notification empty_world Logic.eq_refl Logic.eq_refl)
           Logic.eq_refl).
Defined.

(** The end-to-end scenario of the specification: the assistant's reply
    "Hi there" is sent, once, to the sender. *)
Example hello_end_to_end :
  let remote := scripted_remote ["completed"] [text_message "Hi there"] in
  handle_webhook remote (Json hello_notification) empty_world
  = (Return (With_status "OK" 200),
     mkWorld
       [(VStr "111", VStr "thread_1")]
       [CreateThread;
        AddMessage (VStr "thread_1") (VStr "Hello");
        StartRun (VStr "thread_1");
        Sleep; GetRun (VStr "thread_1") (VStr "run_1");
        ListMessages (VStr "thread_1");
        SendMessage (VStr "111") (VStr "Hi there")]
       [Info_received_webhook hello_notification;
        Info_received_message (VStr "Ann") (VStr "111") (VStr "Hello");
        Info_created_thread (VStr "thread_1") (VStr "111");
        Info_ai_response (VStr "Ann") (VStr "Hi there");
        Info_message_sent (VStr "111");
        Info_response_sent (VStr "Ann")]).
Proof. reflexivity. Qed.

(** ** Messages without text *)

Lemma run_assistant_grows remote (thread_id : value) :
  emits any_event (run_assistant remote thread_id).
Proof.
  unfold run_assistant. repeat emits_step.
  generalize max_attempts. intros n. induction n; simpl; repeat emits_step.
Qed.

Lemma send_message_grows remote (phone_id message : value) :
  emits any_event (send_message remote phone_id message).
Proof. unfold send_message. repeat emits_step. Qed.

(** C10. A message entry without a 'text' member is processed exactly as
    the same entry with the text body '' would be; and when it has a truthy
    sender id, the contacts scan succeeds and get_or_create_thread yields a
    thread, the next outbound call is the append of the empty string to
    that thread. *)
Theorem message_without_text :
  forall remote (d : list (string * value)) (contacts : value) (w : world),
    Py.lookup "text" d = None ->
    process_message remote (VDict d) contacts w
    = process_message remote
        (VDict (("text", VDict [("body", VStr EmptyString)]) :: d)) contacts w
    /\ forall (phone_id contact_name thread_id : value) (w1 : world),
        Py.lookup "from" d = Some phone_id ->
        Py.truthy phone_id = true ->
        contact_name_of contacts phone_id = Return contact_name ->
        get_or_create_thread remote phone_id
          (logging w [Info_received_message contact_name phone_id (VStr EmptyString)])
        = (Return thread_id, w1) ->
        exists rest,
          calls (snd (process_message remote (VDict d) contacts w))
          = calls w1 ++ AddMessage thread_id (VStr EmptyString) :: rest.
Proof.
  intros remote d contacts w Htext. split.
  - unfold process_message. cbn [Py.get Py.lookup].
    change ("text" =? "from")%string with false.
    change ("text" =? "text")%string with true.
    cbv iota. rewrite Htext. reflexivity.
  - intros phone_id contact_name thread_id w1 Hfrom Htruthy Hname Hresolve.
    unfold process_message, try, bind, eval. cbn [Py.get].
    rewrite Hfrom, Htext. cbn [Py.get Py.lookup]. rewrite Htruthy. cbn [negb].
    rewrite Hname.
    change (log (Info_received_message contact_name phone_id (VStr EmptyString)) w)
      with (Return tt,
            logging w [Info_received_message contact_name phone_id (VStr EmptyString)]).
    cbv iota. rewrite Hresolve.
    unfold add_message_to_thread, try, bind, request, eval, log, ret.
    cbv beta iota zeta.
    destruct (remote (calls w1 ++ [AddMessage thread_id (VStr EmptyString)])) as [|body];
      cbn [raise_for_status negb].
    + exists []. reflexivity.
    + match goal with
      | |- context [run_assistant remote thread_id ?w2] =>
          destruct (run_assistant_grows remote thread_id w2) as (es & E & _);
          destruct (run_assistant remote thread_id w2) as [[ai|e] w3]
      end; cbn [snd calls] in E.
      * destruct (Py.truthy ai).
        -- match goal with
           | |- context [send_message remote phone_id ai ?w4] =>
               destruct (send_message_grows remote phone_id ai w4) as (es' & E' & _);
               destruct (send_message remote phone_id ai w4) as [[[|]|e] w5]
           end; cbn [snd calls] in *; rewrite E', E, <- !app_assoc;
             exists (es ++ es'); reflexivity.
        -- cbn [snd calls]. rewrite E, <- app_assoc. exists es. reflexivity.
      * cbn [snd calls]. rewrite E, <- app_assoc. exists es. reflexivity.
Qed.

Lemma message_without_text_witness :
  exists rest,
    calls (snd (process_message (scripted_remote ["completed"] [text_message "Hi there"])
                  (VDict [("from", VStr "111"); ("type", VStr "image")])
                  sample_contacts empty_world))
    = [CreateThread] ++ AddMessage (VStr "thread_1") (VStr EmptyString) :: rest.
Proof.
  refine (proj2 (message_without_text
                   (scripted_remote ["completed"] [text_message "Hi there"])
                   [("from", VStr "111"); ("type", VStr "image")]
                   sample_contacts empty_world eq_refl)
            (VStr "111") (VStr "Ann") (VStr "thread_1")
            (mkWorld [(VStr "111", VStr "thread_1")] [CreateThread]
               [Info_received_message (VStr "Ann") (VStr "111") (VStr EmptyString);
                Info_created_thread (VStr "thread_1") (VStr "111")])
            eq_refl eq_refl eq_refl eq_refl).
Defined.

(** * Further properties of the code *)

(** ** The shape of a run *)

Lemma polls_app (thread_id run_id : value) (a b : nat) :
  polls thread_id run_id (a + b)
  = polls thread_id run_id a ++ polls thread_id run_id b.
Proof. induction a; simpl; [reflexivity|]. now rewrite IHa. Qed.

Lemma poll_shape remote (thread_id run_id : value) (n : nat) (w : world) :
  exists k listing,
    (k <= n)%nat
    /\ (listing = [] \/ (listing = [ListMessages thread_id] /\ (1 <= k)%nat))
    /\ calls (snd (poll remote thread_id run_id n w))
       = calls w ++ polls thread_id run_id k ++ listing
    /\ threads (snd (poll remote thread_id run_id n w)) = threads w
    /\ (forall v, fst (poll remote thread_id run_id n w) = Return v ->
                  v <> VNone -> listing = [ListMessages thread_id]).
Proof.
  revert w. induction n as [|n IH]; intros w.
  - exists O, []. simpl. rewrite app_nil_r. repeat split; auto.
    intros v [= <-] H. now contradiction H.
  - simpl. unfold bind, sleep, request, eval, log, ret; simpl.
    destruct (json _) as [body|e]; simpl.
    2:{ exists 1%nat, []. simpl. rewrite <- app_assoc.
        repeat split; auto; try lia. intros v Hv; discriminate Hv. }
    destruct (Py.getitem body "status") as [status|e]; simpl.
    2:{ exists 1%nat, []. simpl. rewrite <- app_assoc.
        repeat split; auto; try lia. intros v Hv; discriminate Hv. }
    destruct (Py.eq status (VStr "completed")).
    + simpl.
      assert (Hl : forall (o : outcome value) (ws : world),
                 calls ws = ((calls w ++ [Sleep]) ++ [GetRun thread_id run_id])
                            ++ [ListMessages thread_id] ->
                 threads ws = threads w ->
                 exists k listing,
                   (k <= S n)%nat
                   /\ (listing = [] \/
                       (listing = [ListMessages thread_id] /\ (1 <= k)%nat))
                   /\ calls (snd (o, ws))
                      = calls w ++ polls thread_id run_id k ++ listing
                   /\ threads (snd (o, ws)) = threads w
                   /\ (forall v, fst (o, ws) = Return v -> v <> VNone ->
                                 listing = [ListMessages thread_id])).
      { intros o ws Hc Ht. exists 1%nat, [ListMessages thread_id].
        simpl. rewrite Hc, <- !app_assoc. repeat split; auto; try lia. }
      destruct (json _) as [listing|e]; cbv beta iota;
        [|apply Hl; reflexivity].
      destruct (Py.getitem listing "data") as [messages|e]; cbv beta iota;
        [|apply Hl; reflexivity].
      destruct (Py.truthy messages); apply Hl; reflexivity.
    + destruct (run_ended status); simpl.
      * exists 1%nat, []. simpl. rewrite <- app_assoc. repeat split; auto; try lia.
        intros v [= <-] H. now contradiction H.
      * match goal with
        | |- context [poll remote thread_id run_id n ?w1] =>
            destruct (IH w1) as (k & listing & Hk & Hl & Hc & Ht & Hv)
        end.
        exists (S k), listing. simpl in Hc, Ht.
        split; [lia|]. split.
        { destruct Hl as [Hl|[Hl Hk1]]; [now left | right; split; [exact Hl|lia]]. }
        split; [rewrite Hc; simpl; now rewrite <- !app_assoc|].
        split; [exact Ht | exact Hv].
Qed.

Lemma count_app (p : event -> bool) (a b : list event) :
  count p (a ++ b) = (count p a + count p b)%nat.
Proof. unfold count. now rewrite filter_app, length_app. Qed.

Lemma count_sleep_polls (thread_id run_id : value) (k : nat) :
  count is_sleep (polls thread_id run_id k) = k.
Proof.
  induction k; [reflexivity|]. unfold count in *. simpl. now rewrite IHk.
Qed.

Lemma count_polls_other (p : event -> bool) (thread_id run_id : value) (k : nat) :
  p Sleep = false -> p (GetRun thread_id run_id) = false ->
  count p (polls thread_id run_id k) = O.
Proof.
  intros Hs Hg. induction k; [reflexivity|].
  unfold count in *. simpl. now rewrite Hs, Hg.
Qed.

(** [run_assistant] returns, keeps [threads], and its interactions are a
    run; a result other than None comes after the message listing. *)
Lemma run_assistant_shape remote (thread_id : value) (w : world) :
  exists v es,
    fst (run_assistant remote thread_id w) = Return v
    /\ threads (snd (run_assistant remote thread_id w)) = threads w
    /\ calls (snd (run_assistant remote thread_id w)) = calls w ++ es
    /\ run_trace thread_id es
    /\ (v <> VNone -> In (ListMessages thread_id) es).
Proof.
  assert (Hstop : forall (e : exn) (lg : list log_record),
             exists v es,
               fst (Return VNone, mkWorld (threads w)
                      (calls w ++ [StartRun thread_id]) lg) = Return v
               /\ threads w = threads w
               /\ calls w ++ [StartRun thread_id] = calls w ++ es
               /\ run_trace thread_id es
               /\ (v <> VNone -> In (ListMessages thread_id) es)).
  { intros e lg. exists VNone, [StartRun thread_id]. repeat split; auto.
    - exists VNone, O, []. repeat split; auto; [lia | now left].
    - intros H. now contradiction H. }
  unfold run_assistant, try, bind, request, eval, log, ret. cbv beta iota.
  destruct (json _) as [run|e]; [|exact (Hstop e _)].
  destruct (Py.getitem run "id") as [run_id|e]; [|exact (Hstop e _)].
  match goal with
  | |- context [poll remote thread_id run_id max_attempts ?w1] =>
      destruct (poll_shape remote thread_id run_id max_attempts w1)
        as (k & listing & Hk & Hl & Hc & Ht & Hv);
      destruct (poll remote thread_id run_id max_attempts w1) as [[v|e] w2]
  end; cbn [fst snd calls threads] in *.
  - exists v, (StartRun thread_id :: polls thread_id run_id k ++ listing).
    rewrite Hc, <- app_assoc. repeat split; auto.
    + exists run_id, k, listing. repeat split; auto.
      destruct Hl as [->|[-> _]]; [now left | now right].
    + intros Hne. rewrite (Hv v Logic.eq_refl Hne). right.
      apply in_or_app. right. now left.
  - exists VNone, (StartRun thread_id :: polls thread_id run_id k ++ listing).
    rewrite Hc, <- app_assoc. repeat split; auto.
    + exists run_id, k, listing. repeat split; auto.
      destruct Hl as [->|[-> _]]; [now left | now right].
    + intros H. now contradiction H.
Qed.

(** X1. run_assistant never raises and never touches [threads]; what it
    issues is the start of the run, then at most 10 rounds of one sleep and
    one status check, then at most one message listing; it sleeps exactly
    once per status check, and it returns something other than None only
    after a message listing. *)
Theorem run_assistant_discipline :
  forall remote (thread_id : value) (w : world),
    exists v es,
      fst (run_assistant remote thread_id w) = Return v
      /\ threads (snd (run_assistant remote thread_id w)) = threads w
      /\ calls (snd (run_assistant remote thread_id w)) = calls w ++ es
      /\ run_trace thread_id es
      /\ count is_sleep es = status_checks es
      /\ (status_checks es <= 10)%nat
      /\ (count is_listing es <= 1)%nat
      /\ (v <> VNone -> count is_listing es = 1%nat).
Proof.
  intros remote thread_id w.
  destruct (run_assistant_shape remote thread_id w)
    as (v & es & Hv & Ht & Hc & Hrun & Hlist).
  exists v, es. repeat (split; [assumption|]).
  destruct Hrun as (run_id & k & listing & -> & Hk & Hl).
  assert (Hs : count is_sleep (StartRun thread_id :: polls thread_id run_id k ++ listing) = k).
  { change (StartRun thread_id :: polls thread_id run_id k ++ listing)
      with ([StartRun thread_id] ++ polls thread_id run_id k ++ listing).
    rewrite !count_app, count_sleep_polls.
    destruct Hl as [->| ->]; reflexivity || (unfold count; simpl; lia). }
  assert (Hg : status_checks (StartRun thread_id :: polls thread_id run_id k ++ listing) = k).
  { change (StartRun thread_id :: polls thread_id run_id k ++ listing)
      with ([StartRun thread_id] ++ polls thread_id run_id k ++ listing).
    rewrite !status_checks_app, status_checks_polls.
    destruct Hl as [->| ->]; unfold status_checks; simpl; lia. }
  assert (Hn : count is_listing (StartRun thread_id :: polls thread_id run_id k ++ listing)
               = count is_listing listing).
  { change (StartRun thread_id :: polls thread_id run_id k ++ listing)
      with ([StartRun thread_id] ++ polls thread_id run_id k ++ listing).
    rewrite !count_app, count_polls_other by reflexivity. reflexivity. }
  rewrite Hs, Hg, Hn. repeat split; auto.
  - destruct Hl as [->| ->]; unfold count; simpl; lia.
  - intros Hne. specialize (Hlist Hne).
    destruct Hl as [->| ->]; [|reflexivity].
    exfalso. rewrite app_nil_r in Hlist. destruct Hlist as [H|H]; [discriminate|].
    clear - H. induction k; simpl in H; [exact H|].
    destruct H as [H|[H|H]]; try discriminate. auto.
Qed.

(** ** Runs that end at a given status check *)

Lemma polls_snoc (thread_id run_id : value) (n : nat) :
  polls thread_id run_id (S n)
  = polls thread_id run_id n ++ [Sleep; GetRun thread_id run_id].
Proof.
  replace (S n) with (n + 1)%nat by lia. now rewrite polls_app.
Qed.

Lemma still_going_true (status : value) :
  still_going status = true ->
  Py.eq status (VStr "completed") = false /\ run_ended status = false.
Proof.
  unfold still_going. intros H. apply andb_prop in H. destruct H as [H1 H2].
  split; now apply negb_true_iff.
Qed.

Lemma poll_rounds remote (thread_id run_id : value) (n m : nat) :
  forall w0 : world,
    (forall j, (j < n)%nat ->
       exists status,
         replies remote (calls w0 ++ polls thread_id run_id (S j)) "status" status
         /\ still_going status = true) ->
    poll remote thread_id run_id (n + m) w0
    = poll remote thread_id run_id m (after w0 (polls thread_id run_id n)).
Proof.
  induction n as [|n IH]; intros w0 H.
  - simpl. unfold after. rewrite app_nil_r. now destruct w0.
  - destruct (H O ltac:(lia)) as (status & Hr & Hg).
    apply still_going_true in Hg. destruct Hg as [Hc He].
    change (S n + m)%nat with (S (n + m)).
    rewrite (poll_still_going remote thread_id run_id status _ w0 Hr Hc He).
    rewrite IH.
    + rewrite after_after. reflexivity.
    + intros j Hj. destruct (H (S j) ltac:(lia)) as (s & Hs & Hgs).
      exists s. split; [|exact Hgs].
      unfold after; simpl. rewrite <- app_assoc. exact Hs.
Qed.

Lemma poll_ended remote (thread_id run_id status : value) (n : nat) (w : world) :
  replies remote (calls w ++ [Sleep; GetRun thread_id run_id]) "status" status ->
  run_ended status = true ->
  poll remote thread_id run_id (S n) w
  = (Return VNone,
     mkWorld (threads w) (calls w ++ [Sleep; GetRun thread_id run_id])
             (logged w ++ [Error_run_status status])).
Proof.
  intros (body & Hr & Hs) He. simpl.
  unfold bind, sleep, request, eval, log, ret; simpl.
  rewrite <- app_assoc; simpl. rewrite Hr; simpl. rewrite Hs, He.
  assert (Hc : Py.eq status (VStr "completed") = false).
  { unfold run_ended in He. simpl in He.
    repeat (apply orb_prop in He; destruct He as [He|He]);
      try discriminate; apply eq_str_true in He; subst; reflexivity. }
  rewrite Hc. reflexivity.
Qed.

Lemma going_for_rounds remote (w : world) (thread_id run_id : value) (n : nat) :
  going_for remote w thread_id run_id n ->
  forall j, (j < n)%nat ->
    exists status,
      replies remote
        (calls (after w [StartRun thread_id]) ++ polls thread_id run_id (S j))
        "status" status
      /\ still_going status = true.
Proof.
  intros H j Hj. destruct (H j Hj) as (s & Hs & Hg). exists s. split; [|exact Hg].
  unfold after; simpl calls. rewrite <- app_assoc. exact Hs.
Qed.

(** X2. When the run starts, the first [n] status checks (n < 10) find a
    status that is none of completed, failed, cancelled, expired, and check
    n+1 finds 'completed', run_assistant stops there: it lists the messages
    once and returns the text of the first one, or None when the list is
    empty or its first item cannot be read (then logging the error); no
    further status check is made. The 10th check is still honoured. *)
Theorem run_assistant_completes_at :
  forall remote (thread_id run_id messages : value) (n : nat) (w : world),
    (n < 10)%nat ->
    replies remote (calls w ++ [StartRun thread_id]) "id" run_id ->
    going_for remote w thread_id run_id n ->
    replies remote (calls w ++ StartRun thread_id :: polls thread_id run_id (S n))
      "status" (VStr "completed") ->
    replies remote
      (calls w ++ StartRun thread_id :: polls thread_id run_id (S n)
               ++ [ListMessages thread_id])
      "data" messages ->
    run_assistant remote thread_id w
    = (Return (completed_result messages),
       mkWorld (threads w)
         (calls w ++ StartRun thread_id :: polls thread_id run_id (S n)
                  ++ [ListMessages thread_id])
         (logged w ++ completed_records messages)).
Proof.
  intros remote thread_id run_id messages n w Hn Hstart Hgo Hdone Hlist.
  rewrite (run_assistant_started _ _ _ _ Hstart). unfold try, max_attempts.
  replace 10%nat with (n + S (9 - n))%nat by lia.
  rewrite (poll_rounds remote thread_id run_id n (S (9 - n)) _
             (going_for_rounds _ _ _ _ _ Hgo)).
  rewrite after_after.
  rewrite (poll_completed remote thread_id run_id messages).
  - rewrite after_after. unfold completed_result, completed_records, after.
    cbn [threads calls logged]. rewrite polls_snoc, <- !app_assoc.
    destruct (Py.truthy messages); [destruct (first_text messages)|];
      cbn [app]; unfold bind, log, ret; cbn [threads calls logged];
      rewrite ?app_nil_r; try reflexivity; now destruct w.
  - unfold after; cbn [calls]. rewrite polls_snoc in Hdone.
    rewrite <- !app_assoc. cbn [app] in *. exact Hdone.
  - unfold after; cbn [calls]. rewrite polls_snoc in Hlist.
    rewrite <- !app_assoc in *. cbn [app] in *. exact Hlist.
Qed.

Lemma run_assistant_completes_at_witness :
  run_assistant
    (scripted_remote ["queued"; "in_progress"; "completed"] [text_message "Hi there"])
    (VStr "thread_1") empty_world
  = (Return (VStr "Hi there"),
     mkWorld []
       (StartRun (VStr "thread_1") :: polls (VStr "thread_1") (VStr "run_1") 3
        ++ [ListMessages (VStr "thread_1")])
       []).
Proof.
  apply (run_assistant_completes_at
           (scripted_remote ["queued"; "in_progress"; "completed"]
              [text_message "Hi there"])
           (VStr "thread_1") (VStr "run_1") (VList [text_message "Hi there"])
           2 empty_world).
  - lia.
  - eexists. split; reflexivity.
  - intros j Hj. destruct j as [|[|j]]; [| |lia];
      (eexists; split; [eexists; split; reflexivity | reflexivity]).
  - eexists. split; reflexivity.
  - eexists. split; reflexivity.
Defined.

(** X3. When the run starts, the first [n] status checks (n < 10) find a
    status on which the loop goes on, and check n+1 finds 'failed',
    'cancelled' or 'expired', run_assistant stops polling at once: it logs
    the status, makes no further status check, never lists the messages,
    and returns None. *)
Theorem run_assistant_ends_at :
  forall remote (thread_id run_id status : value) (n : nat) (w : world),
    (n < 10)%nat ->
    replies remote (calls w ++ [StartRun thread_id]) "id" run_id ->
    going_for remote w thread_id run_id n ->
    replies remote (calls w ++ StartRun thread_id :: polls thread_id run_id (S n))
      "status" status ->
    run_ended status = true ->
    run_assistant remote thread_id w
    = (Return VNone,
       mkWorld (threads w)
         (calls w ++ StartRun thread_id :: polls thread_id run_id (S n))
         (logged w ++ [Error_run_status status])).
Proof.
  intros remote thread_id run_id status n w Hn Hstart Hgo Hend He.
  rewrite (run_assistant_started _ _ _ _ Hstart). unfold try, max_attempts.
  replace 10%nat with (n + S (9 - n))%nat by lia.
  rewrite (poll_rounds remote thread_id run_id n (S (9 - n)) _
             (going_for_rounds _ _ _ _ _ Hgo)).
  rewrite after_after.
  rewrite (poll_ended remote thread_id run_id status); [|
    unfold after; cbn [calls]; rewrite polls_snoc in Hend;
    rewrite <- !app_assoc; cbn [app] in *; exact Hend | exact He].
  unfold after. cbn [threads calls logged].
  rewrite polls_snoc, <- !app_assoc. reflexivity.
Qed.

Lemma run_assistant_ends_at_witness :
  run_assistant (scripted_remote ["in_progress"; "expired"] [text_message "late"])
    (VStr "thread_1") empty_world
  = (Return VNone,
     mkWorld []
       (StartRun (VStr "thread_1") :: polls (VStr "thread_1") (VStr "run_1") 2)
       [Error_run_status (VStr "expired")]).
Proof.
  apply (run_assistant_ends_at
           (scripted_remote ["in_progress"; "expired"] [text_message "late"])
           (VStr "thread_1") (VStr "run_1") (VStr "expired") 1 empty_world).
  - lia.
  - eexists. split; reflexivity.
  - intros j Hj. destruct j as [|j]; [|lia].
    eexists; split; [eexists; split; reflexivity | reflexivity].
  - eexists. split; reflexivity.
  - reflexivity.
Defined.

(** ** Resolving twice *)

Lemma get_or_create_thread_unhashable remote (user_id : value) (w : world) :
  Py.hashable user_id = false ->
  get_or_create_thread remote user_id w = (Raise TypeError, w).
Proof.
  intros H. unfold get_or_create_thread, bind, threads_contains. now rewrite H.
Qed.

(** A resolve that returns has stored its handle under [user_id], and has
    issued at most the create call. *)
Lemma get_or_create_thread_returned remote (user_id thread_id : value) (w w1 : world) :
  get_or_create_thread remote user_id w = (Return thread_id, w1) ->
  Py.hashable user_id = true
  /\ dict_get (threads w1) user_id = Some thread_id
  /\ exists create, at_most CreateThread create /\ calls w1 = calls w ++ create.
Proof.
  intros H.
  destruct (Py.hashable user_id) eqn:Hh;
    [|rewrite get_or_create_thread_unhashable in H by exact Hh; discriminate].
  split; [reflexivity|].
  destruct (dict_get (threads w) user_id) as [t|] eqn:Hget.
  - rewrite (get_or_create_thread_found _ _ _ _ Hh Hget) in H.
    injection H as <- <-. split; [exact Hget|].
    exists []. split; [now left | now rewrite app_nil_r].
  - destruct (created_thread_id (remote (calls w ++ [CreateThread]))) as [t|e] eqn:E.
    + rewrite (get_or_create_thread_created _ _ _ _ Hh Hget E) in H.
      injection H as <- <-. cbn [threads calls]. split.
      * apply dict_get_set_same. now apply eq_refl_hashable.
      * exists [CreateThread]. split; [now right | reflexivity].
    + rewrite (get_or_create_thread_failed _ _ _ _ Hh Hget E) in H. discriminate.
Qed.

(** X4. Whenever get_or_create_thread returns a handle, whether found or
    just created, calling it again for the same user_id from the resulting
    state returns the same handle and changes nothing: no call is issued,
    whatever the remote side would answer. *)
Theorem get_or_create_thread_idempotent :
  forall remote remote' (user_id thread_id : value) (w w1 : world),
    get_or_create_thread remote user_id w = (Return thread_id, w1) ->
    get_or_create_thread remote' user_id w1 = (Return thread_id, w1).
Proof.
  intros remote remote' user_id thread_id w w1 H.
  apply get_or_create_thread_returned in H. destruct H as (Hh & Hget & _).
  now apply get_or_create_thread_found.
Qed.

Lemma get_or_create_thread_idempotent_witness :
  get_or_create_thread unreachable_remote (VStr "111")
    (mkWorld [(VStr "111", VStr "thread_1")] [CreateThread]
       [Info_created_thread (VStr "thread_1") (VStr "111")])
  = (Return (VStr "thread_1"),
     mkWorld [(VStr "111", VStr "thread_1")] [CreateThread]
       [Info_created_thread (VStr "thread_1") (VStr "111")]).
Proof.
  apply (get_or_create_thread_idempotent (scripted_remote [] []) unreachable_remote
           (VStr "111") (VStr "thread_1") empty_world).
  reflexivity.
Defined.

(** ** The interactions of one message *)

Lemma get_or_create_thread_at_most remote (user_id : value) (w : world) :
  exists create,
    at_most CreateThread create
    /\ calls (snd (get_or_create_thread remote user_id w)) = calls w ++ create.
Proof.
  destruct (Py.hashable user_id) eqn:Hh.
  - destruct (dict_get (threads w) user_id) as [t|] eqn:Hget.
    + rewrite (get_or_create_thread_found _ _ _ _ Hh Hget).
      exists []. split; [now left | now rewrite app_nil_r].
    + exists [CreateThread]. split; [now right|].
      now apply get_or_create_thread_absent_calls.
  - rewrite get_or_create_thread_unhashable by exact Hh.
    exists []. split; [now left | now rewrite app_nil_r].
Qed.

Lemma add_message_to_thread_exact remote (thread_id message : value) (w : world) :
  exists added records,
    add_message_to_thread remote thread_id message w
    = (Return added,
       mkWorld (threads w) (calls w ++ [AddMessage thread_id message])
               (logged w ++ records)).
Proof.
  unfold add_message_to_thread, try, bind, request, eval, log, ret.
  cbv beta iota zeta.
  destruct (remote _) as [|body]; cbn [raise_for_status threads calls logged].
  - exists false, [Error_add_message HTTPError]. reflexivity.
  - exists true, []. now rewrite app_nil_r.
Qed.

Lemma send_message_exact remote (phone_id message : value) (w : world) :
  exists sent records,
    send_message remote phone_id message w
    = (Return sent,
       mkWorld (threads w) (calls w ++ [SendMessage phone_id message])
               (logged w ++ records)).
Proof.
  unfold send_message, try, bind, request, eval, log, ret.
  cbv beta iota zeta.
  destruct (remote _) as [|body]; cbn [raise_for_status threads calls logged].
  - exists false, [Error_send_failed HTTPError]. reflexivity.
  - exists true, [Info_message_sent phone_id]. reflexivity.
Qed.

Lemma message_trace_nothing (message : value) : message_trace message [].
Proof. exists []. split; [now left | now left]. Qed.

Lemma process_message_trace remote (message contacts : value) (w : world) :
  exists es,
    calls (snd (process_message remote message contacts w)) = calls w ++ es
    /\ message_trace message es.
Proof.
  assert (Hnone : forall lg, exists es,
             calls (snd (Return tt, mkWorld (threads w) (calls w) lg))
             = calls w ++ es /\ message_trace message es).
  { intros lg. exists []. split; [now rewrite app_nil_r|].
    apply message_trace_nothing. }
  unfold process_message, try, bind, eval, log. cbv beta iota.
  destruct message as [| | | | | |d]; cbn [Py.get]; cbv beta iota;
    try apply Hnone.
  destruct (Py.lookup "from" d) as [phone_id|] eqn:Hfrom;
    [|destruct (Py.get _ "body" _); cbn [Py.truthy negb]; apply Hnone].
  destruct (Py.get _ "body" _) as [message_text|e] eqn:Hbody; cbv beta iota;
    [|apply Hnone].
  assert (Htext : message_text = text_body (VDict d)).
  { unfold text_body. cbn [member].
    destruct (Py.lookup "text" d) as [text|]; cbn [Py.get] in Hbody.
    - destruct text; try discriminate. cbn [Py.get member] in *. congruence.
    - cbn [Py.lookup member] in *. congruence. }
  subst message_text.
  destruct (Py.truthy phone_id) eqn:Htruthy; cbn [negb]; [|apply Hnone].
  destruct (contact_name_of contacts phone_id) as [contact_name|e];
    cbv beta iota; [|apply Hnone].
  match goal with
  | |- context [get_or_create_thread remote phone_id ?w0] =>
      destruct (get_or_create_thread_at_most remote phone_id w0)
        as (create & Hcreate & Hc);
      destruct (get_or_create_thread remote phone_id w0) as [[thread_id|e] w1]
  end; cbn [snd calls] in Hc; cbv beta iota.
  2:{ exists create. cbn [snd calls]. split; [exact Hc|].
      exists create. split; [exact Hcreate | now left]. }
  destruct (add_message_to_thread_exact remote thread_id (text_body (VDict d)) w1)
    as (added & records & ->). cbv beta iota.
  destruct added; cbn [negb].
  2:{ exists (create ++ [AddMessage thread_id (text_body (VDict d))]).
      cbn [snd calls]. rewrite Hc, <- app_assoc. split; [reflexivity|].
      exists create. split; [exact Hcreate|]. right. exists thread_id. now left. }
  match goal with
  | |- context [run_assistant remote thread_id ?w2] =>
      destruct (run_assistant_shape remote thread_id w2)
        as (v & run & Hv & _ & Hr & Hrun & Hlist);
      destruct (run_assistant remote thread_id w2) as [[ai_response|e] w3]
  end; cbn [fst snd calls] in Hv, Hr; [|discriminate]. cbv beta iota.
  injection Hv as <-.
  destruct (Py.truthy ai_response) eqn:Hai.
  - destruct (send_message_exact remote phone_id ai_response
                (mkWorld (threads w3) (calls w3)
                   (logged w3 ++ [Info_ai_response contact_name ai_response])))
      as (sent & records' & ->). cbv beta iota.
    exists (create ++ AddMessage thread_id (text_body (VDict d))
                   :: run ++ [SendMessage phone_id ai_response]).
    split.
    + destruct sent; cbn [snd calls threads]; rewrite Hr, Hc, <- !app_assoc;
        reflexivity.
    + exists create. split; [exact Hcreate|]. right. exists thread_id. right.
      exists run. split; [exact Hrun|]. right. exists phone_id, ai_response.
      repeat split; auto.
      apply Hlist. intros ->. discriminate.
  - exists (create ++ AddMessage thread_id (text_body (VDict d)) :: run).
    cbn [snd calls]. rewrite Hr, Hc, <- !app_assoc. split; [reflexivity|].
    exists create. split; [exact Hcreate|]. right. exists thread_id. right.
    exists run. split; [exact Hrun|]. now left.
Qed.

(** X5. process_message never raises, whatever the message, the contacts,
    the remote side and the state are, and its outbound calls come in one
    fixed order: at most one thread creation; then at most one append, of
    the message's text body; then at most one run (the start, at most 10
    sleep-and-check rounds, at most one listing); then at most one reply,
    addressed to the message's sender, with a truthy body, and only after
    the messages were listed. *)
Theorem process_message_protocol :
  forall remote (message contacts : value) (w : world),
    fst (process_message remote message contacts w) = Return tt
    /\ exists es,
        calls (snd (process_message remote message contacts w)) = calls w ++ es
        /\ message_trace message es.
Proof.
  intros remote message contacts w. split.
  - apply process_message_returns.
  - apply process_message_trace.
Qed.

(** X6. When the sender id of a message is a JSON array or object (not
    hashable), or the scan of the contacts for that sender raises (contacts
    that are not iterable, a contact or a matching profile that is not an
    object), process_message issues no call and leaves [threads] as it
    was. *)
Theorem process_message_rejects :
  forall remote (message contacts phone_id : value) (w : world),
    sender_id message = Some phone_id ->
    (Py.hashable phone_id = false
     \/ exists e, contact_name_of contacts phone_id = Raise e) ->
    calls (snd (process_message remote message contacts w)) = calls w
    /\ threads (snd (process_message remote message contacts w)) = threads w.
Proof.
  intros remote message contacts phone_id w Hs Hbad.
  unfold process_message, try, bind, eval, log. cbv beta iota.
  destruct message as [| | | | | |d]; try discriminate.
  cbn [sender_id] in Hs. cbn [Py.get]. rewrite Hs. cbv beta iota.
  destruct (Py.get _ "body" _) as [message_text|e]; cbv beta iota;
    [|split; reflexivity].
  destruct (Py.truthy phone_id); cbn [negb]; [|split; reflexivity].
  destruct (contact_name_of contacts phone_id) as [contact_name|e] eqn:Hname;
    cbv beta iota; [|split; reflexivity].
  destruct Hbad as [Hh|[e He]]; [|discriminate].
  rewrite get_or_create_thread_unhashable by exact Hh.
  split; reflexivity.
Qed.

Lemma process_message_rejects_witness :
  calls (snd (process_message (scripted_remote [] [])
                (VDict [("from", VList [VStr "111"]);
                        ("text", VDict [("body", VStr "Hello")])])
                sample_contacts empty_world))
  = calls empty_world
  /\ threads (snd (process_message (scripted_remote [] [])
                     (VDict [("from", VList [VStr "111"]);
                             ("text", VDict [("body", VStr "Hello")])])
                     sample_contacts empty_world))
     = threads empty_world.
Proof.
  apply (process_message_rejects (scripted_remote [] [])
           (VDict [("from", VList [VStr "111"]);
                   ("text", VDict [("body", VStr "Hello")])])
           sample_contacts (VList [VStr "111"]) empty_world).
  - reflexivity.
  - left. reflexivity.
Defined.

(** ** No reply without a completed run *)

Lemma emits_weaken {A} (P Q : event -> Prop) (m : M A) :
  (forall e, P e -> Q e) -> emits P m -> emits Q m.
Proof.
  intros H Hm w. destruct (Hm w) as (es & E & HP). exists es. split; [exact E|].
  eapply Forall_impl; [exact H | exact HP].
Qed.

Lemma before_run_not_reply (e : event) : before_run e -> not_reply e.
Proof. destruct e; simpl; intros H; try contradiction; reflexivity. Qed.

Lemma poll_not_reply remote (thread_id run_id : value) (n : nat) :
  emits not_reply (poll remote thread_id run_id n).
Proof.
  induction n; simpl; [apply emits_ret|].
  apply emits_bind; [now apply emits_sleep|intros _].
  apply emits_bind; [now apply emits_request|intros r].
  do 2 (apply emits_bind; [apply emits_eval|intros ?]).
  destruct (Py.eq _ _).
  - apply emits_bind; [now apply emits_request|intros r'].
    do 2 (apply emits_bind; [apply emits_eval|intros ?]).
    destruct (Py.truthy _); [apply emits_eval | apply emits_ret].
  - destruct (run_ended _); [|exact IHn].
    apply emits_bind; [apply emits_log | intros _; apply emits_ret].
Qed.

Lemma run_assistant_not_reply remote (thread_id : value) :
  emits not_reply (run_assistant remote thread_id).
Proof.
  unfold run_assistant. apply emits_try.
  - apply emits_bind; [now apply emits_request|intros r].
    do 2 (apply emits_bind; [apply emits_eval|intros ?]).
    apply poll_not_reply.
  - intros e. apply emits_bind; [apply emits_log | intros _; apply emits_ret].
Qed.

Lemma run_assistant_never_done remote (thread_id : value) (w : world) :
  never_done remote ->
  fst (run_assistant remote thread_id w) = Return VNone.
Proof.
  intros Hnever.
  unfold run_assistant, try, bind, request, eval, log, ret. cbv beta iota.
  destruct (json _) as [run|e]; [|reflexivity].
  destruct (Py.getitem run "id") as [run_id|e]; [|reflexivity].
  unfold max_attempts. change 10%nat with (10 + 0)%nat.
  rewrite poll_rounds; [reflexivity|].
  intros j _. rewrite polls_snoc.
  change [Sleep; GetRun thread_id run_id]
    with ([Sleep] ++ [GetRun thread_id run_id]).
  rewrite !app_assoc. apply Hnever.
Qed.

(** X7. When every status request finds the run still going (any status
    other than completed, failed, cancelled, expired), process_message
    sends no reply, for every message, contacts and state: a run that
    outlasts the 10 checks is dropped silently. *)
Theorem no_reply_without_completion :
  forall remote (message contacts : value),
    never_done remote ->
    emits not_reply (process_message remote message contacts).
Proof.
  intros remote message contacts Hnever.
  unfold process_message.
  apply emits_try; [|intros e; apply emits_log].
  do 3 (apply emits_bind; [apply emits_eval|intros ?]).
  destruct (negb (Py.truthy a)); [apply emits_log|].
  apply emits_bind; [apply emits_eval|intros contact_name].
  apply emits_bind; [apply emits_log|intros _].
  apply emits_bind;
    [apply (emits_weaken before_run); [exact before_run_not_reply|];
     apply get_or_create_thread_before_run|intros thread_id].
  apply emits_bind;
    [apply (emits_weaken before_run); [exact before_run_not_reply|];
     apply add_message_to_thread_before_run|intros added].
  destruct (negb added); [apply emits_log|].
  apply emits_bind_returning with (a := VNone).
  - intros w. now apply run_assistant_never_done.
  - apply run_assistant_not_reply.
  - cbn [Py.truthy]. apply emits_log.
Qed.

Lemma no_reply_without_completion_witness :
  exists es,
    calls (snd (process_message (scripted_remote [] [text_message "late"])
                  (sample_message "Hello") sample_contacts empty_world))
    = calls empty_world ++ es
    /\ Forall not_reply es.
Proof.
  apply (no_reply_without_completion (scripted_remote [] [text_message "late"])
           (sample_message "Hello") sample_contacts).
  intros history t r. exists (VStr "running"). split; [|reflexivity].
  unfold replies, scripted_remote. rewrite last_last.
  eexists. split; [reflexivity|].
  simpl. now destruct (status_checks (history ++ [GetRun t r]) - 1)%nat.
Defined.

(** ** The reply is the assistant's answer *)

Lemma text_body_get (d : list (string * value)) :
  is_dict (member "text" (VDict d) (VDict [])) = true ->
  obind (Py.get (VDict d) "text" (VDict []))
        (fun text => Py.get text "body" (VStr EmptyString))
  = Return (text_body (VDict d)).
Proof.
  unfold text_body. rewrite get_member. cbn [obind].
  destruct (member "text" (VDict d) (VDict [])); try discriminate.
  intros _. apply get_member.
Qed.

(** X8. For a message with a truthy sender id and a text member that is an
    object (or none), whose contacts scan returns, whose thread resolves
    and whose append succeeds: whatever run_assistant then returns is
    relayed verbatim, as the last call, to the sender if it is truthy, and
    nothing is sent if it is not (None, an empty text); [threads] is as
    the run left it. *)
Theorem reply_relays_answer :
  forall remote (d : list (string * value))
         (contacts phone_id contact_name thread_id v : value)
         (body : option value) (w w1 w3 : world),
    Py.lookup "from" d = Some phone_id ->
    Py.truthy phone_id = true ->
    is_dict (member "text" (VDict d) (VDict [])) = true ->
    contact_name_of contacts phone_id = Return contact_name ->
    get_or_create_thread remote phone_id
      (logging w [Info_received_message contact_name phone_id (text_body (VDict d))])
    = (Return thread_id, w1) ->
    remote (calls w1 ++ [AddMessage thread_id (text_body (VDict d))]) = Success body ->
    run_assistant remote thread_id
      (after w1 [AddMessage thread_id (text_body (VDict d))])
    = (Return v, w3) ->
    calls (snd (process_message remote (VDict d) contacts w))
    = calls w3 ++ (if Py.truthy v then [SendMessage phone_id v] else [])
    /\ threads (snd (process_message remote (VDict d) contacts w)) = threads w3.
Proof.
  intros remote d contacts phone_id contact_name thread_id v body w w1 w3
         Hfrom Htruthy Htext Hname Hresolve Hadd Hrun.
  apply text_body_get in Htext. rewrite get_member in Htext. cbn [obind] in Htext.
  unfold process_message, try, bind, eval. rewrite !get_member.
  cbv beta iota. rewrite Htext. cbv beta iota.
  assert (Hm : member "from" (VDict d) VNone = phone_id)
    by (unfold member; now rewrite Hfrom).
  rewrite !Hm, Htruthy. cbn [negb]. rewrite Hname.
  change (log (Info_received_message contact_name phone_id (text_body (VDict d))) w)
    with (Return tt,
          logging w [Info_received_message contact_name phone_id (text_body (VDict d))]).
  cbv beta iota. rewrite Hresolve.
  unfold add_message_to_thread, try, bind, request, eval, ret.
  cbv beta iota zeta. rewrite Hadd. cbn [raise_for_status negb].
  fold (after w1 [AddMessage thread_id (text_body (VDict d))]).
  rewrite Hrun. cbv beta iota.
  destruct (Py.truthy v).
  - destruct (send_message_exact remote phone_id v
                (mkWorld (threads w3) (calls w3)
                   (logged w3 ++ [Info_ai_response contact_name v])))
      as (sent & records & E).
    unfold log. cbv beta iota. rewrite E.
    destruct sent; split; reflexivity.
  - rewrite app_nil_r. split; reflexivity.
Qed.

Lemma reply_relays_answer_witness :
  let remote := scripted_remote ["completed"] [text_message "Hi there"] in
  let w1 := mkWorld [(VStr "111", VStr "thread_1")] [CreateThread]
              [Info_received_message (VStr "Ann") (VStr "111") (VStr "Hello");
               Info_created_thread (VStr "thread_1") (VStr "111")] in
  let w3 := snd (run_assistant remote (VStr "thread_1")
                   (after w1 [AddMessage (VStr "thread_1") (VStr "Hello")])) in
  calls (snd (process_message remote (sample_message "Hello") sample_contacts
                empty_world))
  = calls w3 ++ [SendMessage (VStr "111") (VStr "Hi there")]
  /\ threads (snd (process_message remote (sample_message "Hello") sample_contacts
                     empty_world))
     = threads w3.
Proof.
  intros remote w1 w3.
  exact (reply_relays_answer remote
           [("from", VStr "111"); ("text", VDict [("body", VStr "Hello")])]
           sample_contacts (VStr "111") (VStr "Ann") (VStr "thread_1")
           (VStr "Hi there") None empty_world w1 w3
           eq_refl eq_refl eq_refl eq_refl eq_refl eq_refl eq_refl).
Defined.

(** ** The world only grows *)

Section Respects.

Variable R : world -> world -> Prop.
Hypothesis R_refl : forall w, R w w.
Hypothesis R_trans : forall w1 w2 w3, R w1 w2 -> R w2 w3 -> R w1 w3.

Lemma respects_ret {A} (a : A) : respects R (ret a).
Proof. intros w. apply R_refl. Qed.

Lemma respects_raise {A} (e : exn) : respects R (@raise A e).
Proof. intros w. apply R_refl. Qed.

Lemma respects_eval {A} (o : outcome A) : respects R (eval o).
Proof. intros w. apply R_refl. Qed.

Lemma respects_bind {A B} (m : M A) (f : A -> M B) :
  respects R m -> (forall a, respects R (f a)) -> respects R (bind m f).
Proof.
  intros Hm Hf w. unfold bind. specialize (Hm w).
  destruct (m w) as [[a|e] w']; cbn [snd] in *; [|exact Hm].
  eapply R_trans; [exact Hm | apply Hf].
Qed.

Lemma respects_try {A} (m : M A) (handler : exn -> M A) :
  respects R m -> (forall e, respects R (handler e)) -> respects R (try m handler).
Proof.
  intros Hm Hh w. unfold try. specialize (Hm w).
  destruct (m w) as [[a|e] w']; cbn [snd] in *; [exact Hm|].
  eapply R_trans; [exact Hm | apply Hh].
Qed.

Lemma respects_for_items {A} (items : list A) (body : A -> M unit) :
  (forall x, respects R (body x)) -> respects R (for_items items body).
Proof.
  intros Hb. induction items; simpl; [apply respects_ret|].
  apply respects_bind; auto.
Qed.

Lemma respects_for_each (v : value) (body : value -> M unit) :
  (forall x, respects R (body x)) -> respects R (for_each v body).
Proof.
  intros Hb. unfold for_each. apply respects_bind; [apply respects_eval|].
  intros items. now apply respects_for_items.
Qed.

End Respects.

Lemma grows_refl (w : world) : grows w w.
Proof. exists [], [], []. rewrite !app_nil_r. repeat split. apply Nat.le_refl. Qed.

Lemma grows_trans (w1 w2 w3 : world) : grows w1 w2 -> grows w2 w3 -> grows w1 w3.
Proof.
  intros (a1 & e1 & r1 & Ht1 & Hc1 & Hl1 & Hn1) (a2 & e2 & r2 & Ht2 & Hc2 & Hl2 & Hn2).
  exists (a1 ++ a2), (e1 ++ e2), (r1 ++ r2).
  rewrite Ht2, Ht1, Hc2, Hc1, Hl2, Hl1, !app_assoc, count_app, length_app.
  repeat split. lia.
Qed.

Lemma grows_log (r : log_record) : respects grows (log r).
Proof.
  intros w. exists [], [], [r]. cbn. rewrite !app_nil_r. repeat split.
  apply Nat.le_refl.
Qed.

Lemma grows_request remote (e : event) : respects grows (request remote e).
Proof.
  intros w. exists [], [e], []. cbn. rewrite !app_nil_r. repeat split.
  apply Nat.le_0_l.
Qed.

Lemma grows_sleep : respects grows sleep.
Proof.
  intros w. exists [], [Sleep], []. cbn. rewrite !app_nil_r. repeat split.
  apply Nat.le_0_l.
Qed.

Lemma dict_set_fresh (d : pydict) (k v : value) :
  dict_get d k = None -> dict_set d k v = d ++ [(k, v)].
Proof.
  induction d as [|[k0 w0] d IH]; simpl; [reflexivity|].
  destruct (Py.eq k0 k); [discriminate|]. intros H. now rewrite IH.
Qed.

Lemma grows_get_or_create_thread remote (user_id : value) :
  respects grows (get_or_create_thread remote user_id).
Proof.
  intros w. destruct (Py.hashable user_id) eqn:Hh.
  - destruct (dict_get (threads w) user_id) as [t|] eqn:Hget.
    + rewrite (get_or_create_thread_found _ _ _ _ Hh Hget). apply grows_refl.
    + destruct (created_thread_id (remote (calls w ++ [CreateThread])))
        as [t|e] eqn:E.
      * rewrite (get_or_create_thread_created _ _ _ _ Hh Hget E).
        exists [(user_id, t)], [CreateThread], [Info_created_thread t user_id].
        cbn. rewrite (dict_set_fresh _ _ _ Hget). repeat split.
        apply Nat.le_refl.
      * rewrite (get_or_create_thread_failed _ _ _ _ Hh Hget E).
        exists [], [CreateThread], [Error_create_thread e].
        cbn. rewrite app_nil_r. repeat split. apply Nat.le_0_l.
  - rewrite get_or_create_thread_unhashable by exact Hh. apply grows_refl.
Qed.

Create HintDb grows.
#[local] Hint Resolve grows_log grows_request grows_sleep
  grows_get_or_create_thread : grows.
#[local] Hint Extern 1 (respects grows (ret _)) =>
  apply respects_ret; exact grows_refl : grows.
#[local] Hint Extern 1 (respects grows (raise _)) =>
  apply respects_raise; exact grows_refl : grows.
#[local] Hint Extern 1 (respects grows (eval _)) =>
  apply respects_eval; exact grows_refl : grows.

Lemma grows_bind {A B} (m : M A) (f : A -> M B) :
  respects grows m -> (forall a, respects grows (f a)) -> respects grows (bind m f).
Proof. apply respects_bind. exact grows_trans. Qed.

Lemma grows_try {A} (m : M A) (handler : exn -> M A) :
  respects grows m -> (forall e, respects grows (handler e)) ->
  respects grows (try m handler).
Proof. apply respects_try. exact grows_trans. Qed.

Lemma grows_for_each (v : value) (body : value -> M unit) :
  (forall x, respects grows (body x)) -> respects grows (for_each v body).
Proof. apply respects_for_each; [exact grows_refl | exact grows_trans]. Qed.

Ltac grows_step :=
  match goal with
  | |- respects grows (bind _ _) => apply grows_bind; [|intros ?]
  | |- respects grows (try _ _) => apply grows_try; [|intros ?]
  | |- respects grows (for_each _ _) => apply grows_for_each; intros ?
  | |- respects grows (if ?b then _ else _) => destruct b
  | |- respects grows _ => solve [auto with grows]
  end.

Lemma grows_send_message remote phone_id message :
  respects grows (send_message remote phone_id message).
Proof. unfold send_message. repeat grows_step. Qed.

Lemma grows_add_message_to_thread remote thread_id message :
  respects grows (add_message_to_thread remote thread_id message).
Proof. unfold add_message_to_thread. repeat grows_step. Qed.

Lemma grows_poll remote thread_id run_id attempts :
  respects grows (poll remote thread_id run_id attempts).
Proof. induction attempts; simpl; repeat grows_step. Qed.

Lemma grows_run_assistant remote thread_id :
  respects grows (run_assistant remote thread_id).
Proof. unfold run_assistant. repeat grows_step. apply grows_poll. Qed.

#[local] Hint Resolve grows_send_message grows_add_message_to_thread
  grows_run_assistant : grows.

Lemma grows_process_message remote message contacts :
  respects grows (process_message remote message contacts).
Proof. unfold process_message. repeat grows_step. Qed.

#[local] Hint Resolve grows_process_message : grows.

Lemma grows_handle_change remote change :
  respects grows (handle_change remote change).
Proof. unfold handle_change. repeat grows_step. Qed.

#[local] Hint Resolve grows_handle_change : grows.

Lemma grows_handle_entry remote entry :
  respects grows (handle_entry remote entry).
Proof. unfold handle_entry. repeat grows_step. Qed.

#[local] Hint Resolve grows_handle_entry : grows.

Lemma grows_handle_webhook remote body :
  respects grows (handle_webhook remote body).
Proof. unfold handle_webhook. repeat grows_step. Qed.

(** X9. Whatever the request, the remote side and the state are, POST
    /webhook only appends: to [threads] (no entry is changed, removed or
    moved), to the outbound calls and to the log; it appends at most one
    thread entry per thread creation it requested; and /health then reports
    the old count plus the number of appended entries. *)
Theorem handle_webhook_only_appends :
  forall remote (body : request_body) (w : world),
    exists added es records,
      threads (snd (handle_webhook remote body w)) = threads w ++ added
      /\ calls (snd (handle_webhook remote body w)) = calls w ++ es
      /\ logged (snd (handle_webhook remote body w)) = logged w ++ records
      /\ (length added <= count is_create es)%nat
      /\ fst (health_check (snd (handle_webhook remote body w)))
         = Return (length (threads w) + length added)%nat.
Proof.
  intros remote body w.
  destruct (grows_handle_webhook remote body w)
    as (added & es & records & Ht & Hc & Hl & Hn).
  exists added, es, records. repeat (split; [assumption|]).
  unfold health_check. cbn [fst]. now rewrite Ht, length_app.
Qed.

(** ** A malformed entry stops the walk *)

Lemma not_for_us_accepted (d : list (string * value)) :
  Py.lookup "object" d = Some (VStr "whatsapp_business_account") ->
  not_for_us (VDict d) = Return false.
Proof.
  intros Hobj. unfold not_for_us, or_else, obind.
  cbn [Py.contains Py.getitem Py.truthy]. rewrite Hobj.
  destruct d; [discriminate|]. reflexivity.
Qed.

Lemma handle_entry_not_dict remote (entry : value) (w : world) :
  is_dict entry = false ->
  handle_entry remote entry w = (Raise AttributeError, w).
Proof. destruct entry; try discriminate; reflexivity. Qed.

Lemma handle_entries_walk remote (entries : list value) (w : world) :
  forallb well_formed_entry entries = true ->
  for_items entries (handle_entry remote) w
  = for_items (flat_map entry_deliveries entries) (deliver remote) w.
Proof.
  intros Hwf. apply for_items_flat_map. intros entry Hin w0.
  apply handle_entry_walk. rewrite forallb_forall in Hwf. now apply Hwf.
Qed.

(** X10. When an accepted notification's entry list holds an item that is
    not an object, POST /webhook processes the entries before it (when
    those have the provider's shape) exactly as usual, then stops: the
    exception is logged, the entries after the broken one are never
    looked at, and the answer is still 'OK'. *)
Theorem malformed_entry_stops_walk :
  forall remote (d : list (string * value)) (good rest : list value)
         (bad : value) (w : world),
    Py.lookup "object" d = Some (VStr "whatsapp_business_account") ->
    member "entry" (VDict d) (VList []) = VList (good ++ bad :: rest) ->
    forallb well_formed_entry good = true ->
    is_dict bad = false ->
    handle_webhook remote (Json (VDict d)) w
    = (Return (With_status "OK" 200),
       logging
         (snd (for_items (flat_map entry_deliveries good) (deliver remote)
                 (logging w [Info_received_webhook (VDict d)])))
         [Error_processing_webhook AttributeError]).
Proof.
  intros remote d good rest bad w Hobj Hentry Hgood Hbad.
  unfold handle_webhook, try, bind, eval, log, ret.
  cbn [get_json]. rewrite (not_for_us_accepted d Hobj), get_member, Hentry.
  unfold for_each, bind, eval. cbn [Py.iterate].
  fold (logging w [Info_received_webhook (VDict d)]).
  rewrite for_items_app. unfold bind.
  rewrite (handle_entries_walk remote good _ Hgood).
  pose proof (for_items_deliver_returns remote (flat_map entry_deliveries good)
                (logging w [Info_received_webhook (VDict d)])) as Hret.
  destruct (for_items _ (deliver remote) _) as [[[]|e] w']; cbn [fst snd] in *;
    [|discriminate].
  cbn [for_items]. unfold bind.
  rewrite (handle_entry_not_dict remote bad w' Hbad). reflexivity.
Qed.

Lemma malformed_entry_stops_walk_witness :
  handle_webhook (scripted_remote ["completed"] [text_message "Hi there"])
    (Json (VDict broken_items)) empty_world
  = (Return (With_status "OK" 200),
     logging
       (snd (for_items (flat_map entry_deliveries [sample_entry "Hello"])
               (deliver (scripted_remote ["completed"] [text_message "Hi there"]))
               (logging empty_world [Info_received_webhook (VDict broken_items)])))
       [Error_processing_webhook AttributeError]).
Proof.
  apply (malformed_entry_stops_walk
           (scripted_remote ["completed"] [text_message "Hi there"])
           broken_items [sample_entry "Hello"] [sample_entry "Again"] (VInt 7)
           empty_world); reflexivity.
Defined.

(** ** How much one notification can cost *)

Lemma run_trace_counts (thread_id : value) (es : list event) :
  run_trace thread_id es ->
  count is_reply es = O /\ (count is_sleep es <= 10)%nat /\ count is_create es = O.
Proof.
  intros (run_id & k & listing & -> & Hk & Hl).
  change (StartRun thread_id :: polls thread_id run_id k ++ listing)
    with ([StartRun thread_id] ++ polls thread_id run_id k ++ listing).
  rewrite !count_app, count_sleep_polls, !count_polls_other by reflexivity.
  destruct Hl as [->| ->]; unfold count; simpl; repeat split; lia.
Qed.

Ltac count_lia :=
  rewrite ?count_app; unfold count in *; simpl; repeat split; lia.

Lemma message_trace_counts (message : value) (es : list event) :
  message_trace message es ->
  (count is_reply es <= 1)%nat
  /\ (count is_sleep es <= 10)%nat
  /\ (count is_create es <= 1)%nat.
Proof.
  intros (create & Hcreate & H).
  assert (Hc : count is_reply create = O /\ count is_sleep create = O
               /\ (count is_create create <= 1)%nat).
  { destruct Hcreate as [->| ->]; unfold count; simpl; repeat split; lia. }
  destruct Hc as (Hc1 & Hc2 & Hc3).
  destruct H as [->|(thread_id & [->|(run & Hrun & H)])].
  - repeat split; lia.
  - count_lia.
  - apply run_trace_counts in Hrun. destruct Hrun as (Hr1 & Hr2 & Hr3).
    destruct H as [->|(phone_id & body & -> & _)].
    + change (AddMessage thread_id (text_body message) :: run)
        with ([AddMessage thread_id (text_body message)] ++ run).
      count_lia.
    + change (AddMessage thread_id (text_body message)
                :: run ++ [SendMessage phone_id body])
        with ([AddMessage thread_id (text_body message)]
                ++ run ++ [SendMessage phone_id body]).
      count_lia.
Qed.

Lemma deliveries_cost remote (ds : list delivery) (w : world) :
  let w' := snd (for_items ds (deliver remote) w) in
  (count is_reply (calls w') <= count is_reply (calls w) + messages_in ds)%nat
  /\ (count is_sleep (calls w') <= count is_sleep (calls w) + 10 * messages_in ds)%nat
  /\ (count is_create (calls w') <= count is_create (calls w) + messages_in ds)%nat.
Proof.
  revert w. induction ds as [|d ds IH]; intros w; cbn zeta.
  - cbn [for_items ret snd]. unfold messages_in. simpl. lia.
  - cbn [for_items]. unfold bind.
    pose proof (deliver_returns remote d w) as Hret.
    destruct d as [|message contacts].
    + cbn [deliver log] in *. specialize (IH (logging w [Info_status_update])).
      cbn zeta in IH. unfold logging in IH. cbn [calls] in IH.
      unfold messages_in in *. cbn [filter]. exact IH.
    + cbn [deliver] in *.
      destruct (process_message_trace remote message contacts w) as (es & Hc & Htr).
      apply message_trace_counts in Htr. destruct Htr as (H1 & H2 & H3).
      destruct (process_message remote message contacts w) as [[[]|e] w1];
        cbn [fst snd] in *; [|discriminate].
      specialize (IH w1). cbn zeta in IH. rewrite Hc, !count_app in IH.
      unfold messages_in in *. cbn [filter length]. lia.
Qed.

Lemma handle_webhook_walk remote (data : value) (w : world) :
  object_field (Json data) = Some (VStr "whatsapp_business_account") ->
  well_formed_notification data = true ->
  snd (handle_webhook remote (Json data) w)
  = snd (for_items (notification_deliveries data) (deliver remote)
           (logging w [Info_received_webhook data])).
Proof.
  intros Hobj Hwf. unfold well_formed_notification in Hwf.
  destruct data as [| | | | | |d]; try discriminate.
  cbn [object_field is_dict andb] in *.
  unfold handle_webhook, try, bind, eval, log, ret.
  cbn [get_json]. rewrite (not_for_us_accepted d Hobj), get_member.
  unfold notification_deliveries.
  destruct (member "entry" (VDict d) (VList [])) as [| | | | |entries|];
    try discriminate.
  cbn [is_list_of elements] in *.
  unfold for_each, bind, eval. cbn [Py.iterate].
  fold (logging w [Info_received_webhook (VDict d)]).
  rewrite (handle_entries_walk remote entries _ Hwf).
  pose proof (for_items_deliver_returns remote
                (flat_map entry_deliveries entries)
                (logging w [Info_received_webhook (VDict d)])) as Hret.
  destruct (for_items _ _ _) as [[[]|e] w']; cbn [fst snd] in *;
    [reflexivity|discriminate].
Qed.

(** X11. An accepted notification of the provider's shape that delivers n
    messages costs at most n replies, at most n thread creations and at
    most 10 n one-second sleeps, whatever the remote side answers: the
    request is held for some 10 seconds per message at worst. *)
Theorem notification_cost :
  forall remote (data : value) (w : world),
    object_field (Json data) = Some (VStr "whatsapp_business_account") ->
    well_formed_notification data = true ->
    let n := messages_in (notification_deliveries data) in
    let w' := snd (handle_webhook remote (Json data) w) in
    (count is_reply (calls w') <= count is_reply (calls w) + n)%nat
    /\ (count is_sleep (calls w') <= count is_sleep (calls w) + 10 * n)%nat
    /\ (count is_create (calls w') <= count is_create (calls w) + n)%nat.
Proof.
  intros remote data w Hobj Hwf n w'. subst n w'.
  rewrite (handle_webhook_walk remote data w Hobj Hwf).
  apply (deliveries_cost remote (notification_deliveries data)
           (logging w [Info_received_webhook data])).
Qed.

Lemma notification_cost_witness :
  let w' := snd (handle_webhook
                   (scripted_remote ["completed"] [text_message "Hi there"])
                   (Json sample_notification) empty_world) in
  (count is_reply (calls w') <= count is_reply (calls empty_world) + 2)%nat
  /\ (count is_sleep (calls w') <= count is_sleep (calls empty_world) + 10 * 2)%nat
  /\ (count is_create (calls w') <= count is_create (calls empty_world) + 2)%nat.
Proof.
  apply (notification_cost
           (scripted_remote ["completed"] [text_message "Hi there"])
           sample_notification empty_world); reflexivity.
Defined.

(** ** The handshake without a challenge *)

(** X12. A handshake whose mode and token match but which carries no
    hub.challenge parameter is logged as verified and then makes the view
    return None, which is no response: the client gets a 500, not the 200
    of a successful handshake and not the 403 of a refused one. An empty
    challenge, by contrast, is echoed as an empty 200 body. *)
Theorem handshake_without_challenge :
  forall (VERIFY_TOKEN : string) (w : world),
    verify_webhook VERIFY_TOKEN (Some "subscribe") (Some VERIFY_TOKEN) None w
    = (Return (Bare None), logging w [Info_webhook_verified])
    /\ answer (verify_webhook VERIFY_TOKEN (Some "subscribe") (Some VERIFY_TOKEN) None) w
       = Internal_server_error
    /\ answer (verify_webhook VERIFY_TOKEN (Some "subscribe") (Some VERIFY_TOKEN)
                 (Some EmptyString)) w
       = Responded 200 EmptyString.
Proof.
  intros VT w. unfold answer, verify_webhook.
  cbn [option_string_eqb]. rewrite !String.eqb_refl. cbn [andb].
  repeat split.
Qed.

(** ** Startup configuration *)

Lemma getattr_required (getenv : Config.environ) (var : string) :
  In var Config.required_vars ->
  Config.getattr (Config.load getenv) var = getenv var.
Proof.
  intros H. unfold Config.required_vars in H.
  repeat (destruct H as [<-|H]; [reflexivity|]). contradiction H.
Qed.

Lemma filter_nil_iff {A} (f : A -> bool) (l : list A) :
  filter f l = [] <-> forall x, In x l -> f x = false.
Proof.
  induction l as [|a l IH]; simpl.
  - split; [intros _ x []|reflexivity].
  - destruct (f a) eqn:E.
    + split; [discriminate|]. intros H. specialize (H a (or_introl Logic.eq_refl)).
      congruence.
    + rewrite IH. split.
      * intros H x [<-|Hx]; auto.
      * intros H x Hx. apply H. now right.
Qed.

Lemma unset_false (v : option string) :
  Config.unset v = false <-> exists s, v = Some s /\ s <> EmptyString.
Proof.
  destruct v as [s|]; simpl.
  - rewrite String.eqb_neq. split.
    + intros H. now exists s.
    + intros (s' & [= <-] & H). exact H.
  - split; [discriminate|]. intros (s & H & _). discriminate.
Qed.

(** X13. The module starts if and only if each of ACCESS_TOKEN,
    PHONE_NUMBER_ID, OPENAI_API_KEY and OPENAI_ASSISTANT_ID is set to a
    non-empty value; otherwise the ValueError names exactly the required
    variables that are unset or empty, in the order of required_vars.
    VERIFY_TOKEN, ASSISTANT_NAME and ASSISTANT_INSTRUCTIONS are never
    required. *)
Theorem startup_requires_four :
  forall getenv : Config.environ,
    (Config.startup getenv = inr (Config.load getenv)
     <-> forall var, In var Config.required_vars ->
                     exists s, getenv var = Some s /\ s <> EmptyString)
    /\ (forall missing,
           Config.startup getenv = inl missing ->
           missing <> []
           /\ missing = filter (fun var => Config.unset (getenv var))
                               Config.required_vars)
    /\ (forall c, Config.startup getenv = inr c -> c = Config.load getenv).
Proof.
  intros getenv.
  assert (Hm : Config.missing_vars (Config.load getenv)
               = filter (fun var => Config.unset (getenv var)) Config.required_vars).
  { unfold Config.missing_vars. apply filter_ext_in. intros var Hvar.
    now rewrite getattr_required. }
  unfold Config.startup. cbv zeta. rewrite Hm.
  destruct (filter _ Config.required_vars) as [|m ms] eqn:E.
  - split; [|split].
    + split; [|reflexivity]. intros _ var Hvar.
      apply unset_false. now apply (proj1 (filter_nil_iff _ _) E).
    + intros missing H. discriminate.
    + intros c [= <-]. reflexivity.
  - split; [|split].
    + split; [discriminate|]. intros H. exfalso.
      assert (Hnil : filter (fun var => Config.unset (getenv var))
                            Config.required_vars = []).
      { apply filter_nil_iff. intros var Hvar. apply unset_false. now apply H. }
      congruence.
    + intros missing [= <-]. split; [discriminate | reflexivity].
    + intros c H. discriminate.
Qed.

Example startup_with_empty_key :
  Config.startup
    (Config.environ_of [("ACCESS_TOKEN", "EAAG"); ("PHONE_NUMBER_ID", "1055");
                        ("OPENAI_API_KEY", EmptyString);
                        ("VERIFY_TOKEN", "s3cret")])
  = inl ["OPENAI_API_KEY"; "OPENAI_ASSISTANT_ID"].
Proof. reflexivity. Qed.

Lemma handshake_accepts (VERIFY_TOKEN : string) (mode token : option string)
    (challenge : string) (w : world) :
  answer (verify_webhook VERIFY_TOKEN mode token (Some challenge)) w
  = Responded 200 challenge
  <-> mode = Some "subscribe" /\ token = Some VERIFY_TOKEN.
Proof.
  unfold answer, verify_webhook.
  rewrite <- !option_string_eqb_eq, <- andb_true_iff.
  destruct (option_string_eqb mode "subscribe" && option_string_eqb token VERIFY_TOKEN);
    simpl; split; congruence.
Qed.

(** X14. With the configuration loaded from the environment, the handshake
    accepts exactly the token the VERIFY_TOKEN variable holds, taken
    verbatim even when it is the empty string, and exactly '12345' when the
    variable is unset; the variable is not among the required ones, so the
    default needs no setting to be in force. *)
Theorem handshake_token_of_environment :
  forall (getenv : Config.environ) (mode token : option string)
         (challenge : string) (w : world),
    answer (verify_webhook (Config.VERIFY_TOKEN (Config.load getenv))
              mode token (Some challenge)) w
    = Responded 200 challenge
    <-> mode = Some "subscribe"
        /\ token = Some (match getenv "VERIFY_TOKEN" with
                         | Some v => v
                         | None => "12345"
                         end).
Proof.
  intros getenv mode token challenge w. apply handshake_accepts.
Qed.

Lemma startup_requires_four_witness :
  Config.startup sample_environ = inr (Config.load sample_environ).
Proof.
  apply (proj2 (proj1 (startup_requires_four sample_environ))).
  intros var H. unfold Config.required_vars in H.
  repeat (destruct H as [<-|H];
          [eexists; split; [reflexivity | discriminate]|]).
  contradiction H.
Defined.

Lemma handshake_token_of_environment_witness :
  answer (verify_webhook (Config.VERIFY_TOKEN (Config.load sample_environ))
            (Some "subscribe") (Some "12345") (Some "1158201444")) empty_world
  = Responded 200 "1158201444".
Proof.
  apply (proj2 (handshake_token_of_environment sample_environ
                  (Some "subscribe") (Some "12345") "1158201444" empty_world)).
  split; reflexivity.
Defined.

(** ** The display name *)

Lemma scan_contacts_skips (phone_id contact : value) (rest : list value) :
  other_contact phone_id contact ->
  scan_contacts (contact :: rest) phone_id = scan_contacts rest phone_id.
Proof.
  intros [Hd He]. destruct contact; try discriminate.
  cbn [scan_contacts]. rewrite get_member. cbn [obind]. now rewrite He.
Qed.

(** X15. In a contacts list, the display name is that of the first contact
    whose wa_id equals the sender id: its profile's name, or 'Unknown'
    when it has no profile or the profile no name; contacts after it are
    not looked at, even malformed ones. When no contact of the list
    matches, the name is 'Unknown'. *)
Theorem contact_name_first_match :
  forall (phone_id : value) (before : list value),
    Forall (other_contact phone_id) before ->
    contact_name_of (VList before) phone_id = Return (VStr "Unknown")
    /\ forall (c : list (string * value)) (after : list value),
        Py.eq (member "wa_id" (VDict c) VNone) phone_id = true ->
        is_dict (member "profile" (VDict c) (VDict [])) = true ->
        contact_name_of (VList (before ++ VDict c :: after)) phone_id
        = Return (member "name" (member "profile" (VDict c) (VDict []))
                         (VStr "Unknown")).
Proof.
  intros phone_id before Hbefore. unfold contact_name_of. cbn [Py.iterate obind].
  induction Hbefore as [|contact before Hc _ IH].
  - split; [reflexivity|].
    intros c after Heq Hprofile. cbn [app scan_contacts].
    rewrite get_member. cbn [obind]. rewrite Heq, get_member. cbn [obind].
    destruct (member "profile" (VDict c) (VDict [])); try discriminate.
    apply get_member.
  - destruct IH as [IH1 IH2]. split.
    + now rewrite scan_contacts_skips.
    + intros c after Heq Hprofile. cbn [app].
      rewrite scan_contacts_skips by exact Hc. now apply IH2.
Qed.

Lemma contact_name_first_match_witness :
  contact_name_of
    (VList ([VDict [("wa_id", VStr "222"); ("profile", VDict [("name", VStr "Bob")])]]
            ++ VDict [("wa_id", VStr "111"); ("profile", VDict [("name", VStr "Ann")])]
            :: [VInt 7]))
    (VStr "111")
  = Return (VStr "Ann").
Proof.
  refine (proj2 (contact_name_first_match (VStr "111")
                   [VDict [("wa_id", VStr "222");
                           ("profile", VDict [("name", VStr "Bob")])]] _)
            [("wa_id", VStr "111"); ("profile", VDict [("name", VStr "Ann")])]
            [VInt 7] eq_refl eq_refl).
  repeat constructor.
Defined.

(** ** The contacts only name the log *)

Lemma blind_ret {A} (a : A) : log_blind (ret a) (ret a).
Proof. intros w1 w2 H. now split. Qed.

Lemma blind_raise {A} (e : exn) : log_blind (@raise A e) (raise e).
Proof. intros w1 w2 H. now split. Qed.

Lemma blind_eval {A} (o : outcome A) : log_blind (eval o) (eval o).
Proof. intros w1 w2 H. now split. Qed.

Lemma blind_log (r1 r2 : log_record) : log_blind (log r1) (log r2).
Proof. intros w1 w2 [Ht Hc]. split; [reflexivity|]. now split. Qed.

Lemma blind_request remote (e : event) : log_blind (request remote e) (request remote e).
Proof.
  intros w1 w2 [Ht Hc]. unfold request. cbn. rewrite Hc. split; [reflexivity|].
  now split.
Qed.

Lemma blind_sleep : log_blind sleep sleep.
Proof.
  intros w1 w2 [Ht Hc]. unfold sleep. cbn. rewrite Hc. split; [reflexivity|].
  now split.
Qed.

Lemma blind_bind {A B} (m1 m2 : M A) (f1 f2 : A -> M B) :
  log_blind m1 m2 -> (forall a, log_blind (f1 a) (f2 a)) ->
  log_blind (bind m1 f1) (bind m2 f2).
Proof.
  intros Hm Hf w1 w2 H. unfold bind. destruct (Hm w1 w2 H) as [Hr Hs].
  destruct (m1 w1) as [[a1|e1] w1'], (m2 w2) as [[a2|e2] w2'];
    cbn [fst snd] in *; try discriminate.
  - injection Hr as <-. now apply Hf.
  - injection Hr as <-. split; [reflexivity | exact Hs].
Qed.

(** [bind] after an expression, when the continuations agree on what the
    expression returns. *)
Lemma blind_bind_eval {A B} (o : outcome A) (f1 f2 : A -> M B) :
  (forall a, o = Return a -> log_blind (f1 a) (f2 a)) ->
  log_blind (bind (eval o) f1) (bind (eval o) f2).
Proof.
  intros Hf w1 w2 H. unfold bind, eval. destruct o as [a|e].
  - now apply Hf.
  - now split.
Qed.

Lemma blind_try {A} (m1 m2 : M A) (h1 h2 : exn -> M A) :
  log_blind m1 m2 -> (forall e, log_blind (h1 e) (h2 e)) ->
  log_blind (try m1 h1) (try m2 h2).
Proof.
  intros Hm Hh w1 w2 H. unfold try. destruct (Hm w1 w2 H) as [Hr Hs].
  destruct (m1 w1) as [[a1|e1] w1'], (m2 w2) as [[a2|e2] w2'];
    cbn [fst snd] in *; try discriminate.
  - split; [exact Hr | exact Hs].
  - injection Hr as <-. now apply Hh.
Qed.

Lemma blind_threads_contains (user_id : value) :
  log_blind (threads_contains user_id) (threads_contains user_id).
Proof.
  intros w1 w2 [Ht Hc]. unfold threads_contains. rewrite Ht.
  destruct (Py.hashable user_id); now repeat split.
Qed.

Lemma blind_threads_getitem (user_id : value) :
  log_blind (threads_getitem user_id) (threads_getitem user_id).
Proof.
  intros w1 w2 [Ht Hc]. unfold threads_getitem. rewrite Ht.
  destruct (dict_get (threads w2) user_id); now repeat split.
Qed.

Lemma blind_threads_setitem (user_id thread_id : value) :
  log_blind (threads_setitem user_id thread_id) (threads_setitem user_id thread_id).
Proof.
  intros w1 w2 [Ht Hc]. unfold threads_setitem. cbn. rewrite Ht. now repeat split.
Qed.

Create HintDb blind.
#[local] Hint Resolve blind_ret blind_raise blind_eval blind_log blind_request
  blind_sleep blind_threads_contains blind_threads_getitem
  blind_threads_setitem : blind.

Ltac blind_step :=
  match goal with
  | |- log_blind (bind _ _) (bind _ _) => apply blind_bind; [|intros ?]
  | |- log_blind (try _ _) (try _ _) => apply blind_try; [|intros ?]
  | |- log_blind (if ?b then _ else _) (if ?b then _ else _) => destruct b
  | |- log_blind _ _ => solve [auto with blind]
  end.

Lemma blind_get_or_create_thread remote (user_id : value) :
  log_blind (get_or_create_thread remote user_id)
            (get_or_create_thread remote user_id).
Proof. unfold get_or_create_thread. repeat blind_step. Qed.

Lemma blind_add_message_to_thread remote (thread_id message : value) :
  log_blind (add_message_to_thread remote thread_id message)
            (add_message_to_thread remote thread_id message).
Proof. unfold add_message_to_thread. repeat blind_step. Qed.

Lemma blind_send_message remote (phone_id message : value) :
  log_blind (send_message remote phone_id message)
            (send_message remote phone_id message).
Proof. unfold send_message. repeat blind_step. Qed.

Lemma blind_poll remote (thread_id run_id : value) (n : nat) :
  log_blind (poll remote thread_id run_id n) (poll remote thread_id run_id n).
Proof. induction n; simpl; repeat blind_step. Qed.

Lemma blind_run_assistant remote (thread_id : value) :
  log_blind (run_assistant remote thread_id) (run_assistant remote thread_id).
Proof. unfold run_assistant. repeat blind_step. apply blind_poll. Qed.

#[local] Hint Resolve blind_get_or_create_thread blind_add_message_to_thread
  blind_send_message blind_run_assistant : blind.

Lemma get_sender (message phone_id : value) :
  Py.get message "from" VNone = Return phone_id ->
  Py.truthy phone_id = true ->
  sender_id message = Some phone_id.
Proof.
  destruct message; try discriminate. cbn [Py.get sender_id].
  destruct (Py.lookup "from" items); intros [= <-]; [reflexivity|discriminate].
Qed.

(** X16. The contacts list only decides the display name in the log: for
    two contacts lists whose scan for the message's sender returns, the
    two runs of process_message issue the same calls and leave the same
    [threads], whatever names the scans found. *)
Theorem contacts_only_name_the_log :
  forall remote (message contacts1 contacts2 : value) (w : world),
    (forall phone_id, sender_id message = Some phone_id ->
        (exists name, contact_name_of contacts1 phone_id = Return name)
        /\ (exists name, contact_name_of contacts2 phone_id = Return name)) ->
    calls (snd (process_message remote message contacts1 w))
    = calls (snd (process_message remote message contacts2 w))
    /\ threads (snd (process_message remote message contacts1 w))
       = threads (snd (process_message remote message contacts2 w)).
Proof.
  intros remote message contacts1 contacts2 w Hscan.
  assert (H : log_blind (process_message remote message contacts1)
                        (process_message remote message contacts2)).
  { unfold process_message. apply blind_try; [|intros e; apply blind_log].
    apply blind_bind_eval. intros phone_id Hfrom.
    do 2 (apply blind_bind; [apply blind_eval|intros ?]).
    destruct (Py.truthy phone_id) eqn:Htruthy; cbn [negb]; [|apply blind_log].
    destruct (Hscan phone_id (get_sender _ _ Hfrom Htruthy))
      as [[name1 ->] [name2 ->]].
    intros w1 w2 Hw. unfold bind at 1 3, eval. cbv beta iota.
    revert w1 w2 Hw. change (log_blind
      (log (Info_received_message name1 phone_id a0) ;;;
       thread_id <- get_or_create_thread remote phone_id ;;
       added <- add_message_to_thread remote thread_id a0 ;;
       if negb added then log Error_failed_to_add_message
       else
         ai_response <- run_assistant remote thread_id ;;
         if Py.truthy ai_response then
           log (Info_ai_response name1 ai_response) ;;;
           success <- send_message remote phone_id ai_response ;;
           if success then log (Info_response_sent name1)
           else log (Error_response_not_sent name1)
         else log Error_no_ai_response)
      (log (Info_received_message name2 phone_id a0) ;;;
       thread_id <- get_or_create_thread remote phone_id ;;
       added <- add_message_to_thread remote thread_id a0 ;;
       if negb added then log Error_failed_to_add_message
       else
         ai_response <- run_assistant remote thread_id ;;
         if Py.truthy ai_response then
           log (Info_ai_response name2 ai_response) ;;;
           success <- send_message remote phone_id ai_response ;;
           if success then log (Info_response_sent name2)
           else log (Error_response_not_sent name2)
         else log Error_no_ai_response)).
    repeat blind_step. }
  destruct (H w w (conj Logic.eq_refl Logic.eq_refl)) as [_ [Ht Hc]].
  now split.
Qed.

Lemma contacts_only_name_the_log_witness :
  calls (snd (process_message (scripted_remote ["completed"] [text_message "Hi there"])
                (sample_message "Hello") sample_contacts empty_world))
  = calls (snd (process_message (scripted_remote ["completed"] [text_message "Hi there"])
                  (sample_message "Hello") (VList []) empty_world))
  /\ threads (snd (process_message (scripted_remote ["completed"] [text_message "Hi there"])
                     (sample_message "Hello") sample_contacts empty_world))
     = threads (snd (process_message (scripted_remote ["completed"] [text_message "Hi there"])
                       (sample_message "Hello") (VList []) empty_world)).
Proof.
  apply (contacts_only_name_the_log
           (scripted_remote ["completed"] [text_message "Hi there"])
           (sample_message "Hello") sample_contacts (VList []) empty_world).
  intros phone_id [= <-]. split; eexists; reflexivity.
Defined.

(** ** Known senders and failed creations *)

Lemma polls_on_thread (thread_id run_id : value) (k : nat) :
  Forall (on_thread thread_id) (polls thread_id run_id k).
Proof. induction k; simpl; repeat constructor. exact IHk. Qed.

Lemma run_trace_on_thread (thread_id : value) (es : list event) :
  run_trace thread_id es -> Forall (on_thread thread_id) es.
Proof.
  intros (run_id & k & listing & -> & _ & Hl).
  constructor; [reflexivity|]. apply Forall_app. split.
  - apply polls_on_thread.
  - destruct Hl as [->| ->]; repeat constructor.
Qed.

(** X17. For a sender already in [threads], process_message never asks for
    a new thread, and whatever it appends, runs, polls or lists is on the
    thread stored for that sender: the conversation continues where it
    was. *)
Theorem known_sender_keeps_thread :
  forall remote (message contacts phone_id thread_id : value) (w : world),
    sender_id message = Some phone_id ->
    Py.hashable phone_id = true ->
    dict_get (threads w) phone_id = Some thread_id ->
    exists es,
      calls (snd (process_message remote message contacts w)) = calls w ++ es
      /\ Forall (on_thread thread_id) es
      /\ threads (snd (process_message remote message contacts w)) = threads w.
Proof.
  intros remote message contacts phone_id thread_id w Hs Hh Hget.
  assert (Hnone : forall lg, exists es,
             calls (snd (Return tt, mkWorld (threads w) (calls w) lg))
             = calls w ++ es
             /\ Forall (on_thread thread_id) es
             /\ threads (snd (Return tt, mkWorld (threads w) (calls w) lg))
                = threads w).
  { intros lg. exists []. cbn. rewrite app_nil_r. repeat split. constructor. }
  unfold process_message, try, bind, eval, log. cbv beta iota.
  destruct message as [| | | | | |d]; try discriminate.
  cbn [sender_id] in Hs. cbn [Py.get]. rewrite Hs. cbv beta iota.
  destruct (Py.get _ "body" _) as [message_text|e]; cbv beta iota;
    [|apply Hnone].
  destruct (Py.truthy phone_id); cbn [negb]; [|apply Hnone].
  destruct (contact_name_of contacts phone_id) as [contact_name|e];
    cbv beta iota; [|apply Hnone].
  match goal with
  | |- context [get_or_create_thread remote phone_id ?w0] =>
      rewrite (get_or_create_thread_found remote phone_id thread_id w0 Hh Hget)
  end. cbv beta iota.
  match goal with
  | |- context [add_message_to_thread remote thread_id message_text ?w1] =>
      destruct (add_message_to_thread_exact remote thread_id message_text w1)
        as (added & records & ->)
  end. cbv beta iota. cbn [threads calls logged].
  destruct added; cbn [negb].
  2:{ exists [AddMessage thread_id message_text]. cbn. repeat split.
      repeat constructor. }
  match goal with
  | |- context [run_assistant remote thread_id ?w2] =>
      destruct (run_assistant_shape remote thread_id w2)
        as (v & run & Hv & Ht & Hr & Hrun & _);
      destruct (run_assistant remote thread_id w2) as [[ai_response|e] w3]
  end; cbn [fst snd calls threads] in Hv, Hr, Ht; [|discriminate].
  cbv beta iota. apply run_trace_on_thread in Hrun.
  destruct (Py.truthy ai_response).
  - destruct (send_message_exact remote phone_id ai_response
                (mkWorld (threads w3) (calls w3)
                   (logged w3 ++ [Info_ai_response contact_name ai_response])))
      as (sent & records' & ->). cbv beta iota.
    exists (AddMessage thread_id message_text
              :: run ++ [SendMessage phone_id ai_response]).
    destruct sent; cbn [snd calls threads]; rewrite Hr, Ht, <- !app_assoc;
      (split; [reflexivity|]); (split; [|reflexivity]);
      (constructor; [reflexivity|]); apply Forall_app;
      (split; [exact Hrun | repeat constructor]).
  - exists (AddMessage thread_id message_text :: run).
    cbn [snd calls threads]. rewrite Hr, Ht, <- !app_assoc.
    split; [reflexivity|]. split; [|reflexivity].
    constructor; [reflexivity | exact Hrun].
Qed.

Lemma known_sender_keeps_thread_witness :
  exists es,
    calls (snd (process_message
                  (scripted_remote ["completed"] [text_message "Hi there"])
                  (sample_message "Again") sample_contacts
                  (mkWorld [(VStr "111", VStr "thread_9")] [] [])))
    = calls (mkWorld [(VStr "111", VStr "thread_9")] [] []) ++ es
    /\ Forall (on_thread (VStr "thread_9")) es
    /\ threads (snd (process_message
                       (scripted_remote ["completed"] [text_message "Hi there"])
                       (sample_message "Again") sample_contacts
                       (mkWorld [(VStr "111", VStr "thread_9")] [] [])))
       = threads (mkWorld [(VStr "111", VStr "thread_9")] [] []).
Proof.
  apply (known_sender_keeps_thread
           (scripted_remote ["completed"] [text_message "Hi there"])
           (sample_message "Again") sample_contacts (VStr "111") (VStr "thread_9")
           (mkWorld [(VStr "111", VStr "thread_9")] [] [])); reflexivity.
Defined.

(** X18. For a sender not yet in [threads], when the thread creation fails
    process_message stops there: it has issued the create call and nothing
    else (no append, no run, no reply), and [threads] is as it was, so the
    sender's next message asks for a thread again. *)
Theorem creation_failure_stops :
  forall remote (message contacts phone_id : value) (e : exn) (w : world),
    sender_id message = Some phone_id ->
    Py.hashable phone_id = true ->
    dict_get (threads w) phone_id = None ->
    created_thread_id (remote (calls w ++ [CreateThread])) = Raise e ->
    exists es,
      calls (snd (process_message remote message contacts w)) = calls w ++ es
      /\ at_most CreateThread es
      /\ threads (snd (process_message remote message contacts w)) = threads w.
Proof.
  intros remote message contacts phone_id e w Hs Hh Hget Hfail.
  assert (Hnone : forall lg, exists es,
             calls (snd (Return tt, mkWorld (threads w) (calls w) lg))
             = calls w ++ es
             /\ at_most CreateThread es
             /\ threads (snd (Return tt, mkWorld (threads w) (calls w) lg))
                = threads w).
  { intros lg. exists []. cbn. rewrite app_nil_r. repeat split. now left. }
  unfold process_message, try, bind, eval, log. cbv beta iota.
  destruct message as [| | | | | |d]; try discriminate.
  cbn [sender_id] in Hs. cbn [Py.get]. rewrite Hs. cbv beta iota.
  destruct (Py.get _ "body" _) as [message_text|e']; cbv beta iota;
    [|apply Hnone].
  destruct (Py.truthy phone_id); cbn [negb]; [|apply Hnone].
  destruct (contact_name_of contacts phone_id) as [contact_name|e'];
    cbv beta iota; [|apply Hnone].
  match goal with
  | |- context [get_or_create_thread remote phone_id ?w0] =>
      rewrite (get_or_create_thread_failed remote phone_id e w0 Hh Hget Hfail)
  end. cbv beta iota. cbn [snd calls threads].
  exists [CreateThread]. repeat split. now right.
Qed.

Lemma creation_failure_stops_witness :
  exists es,
    calls (snd (process_message unreachable_remote (sample_message "Hello")
                  sample_contacts empty_world))
    = calls empty_world ++ es
    /\ at_most CreateThread es
    /\ threads (snd (process_message unreachable_remote (sample_message "Hello")
                       sample_contacts empty_world))
       = threads empty_world.
Proof.
  apply (creation_failure_stops unreachable_remote (sample_message "Hello")
           sample_contacts (VStr "111") HTTPError empty_world); reflexivity.
Defined.
